(** * GetIP: interface enumeration and reachability probe

    A shallow embedding of [src/GetIP/main.cpp].  The program talks to the
    operating system all the time, so the embedding has two parts:

    - [OS]: what the kernel and libc answer (the interface list, whether a
      socket can be had, the hardware address of an interface, how the
      connection attempt ends, when the detached thread is done);
    - [World]: what the process changes while it runs (its descriptor table,
      the two output streams, the clock of the main thread, the local
      variable shared with the detached thread).

    Every function of the source is a state transformer on [World] that reads
    its answers from an [OS]. *)

From Stdlib Require Import ZArith NArith Strings.Byte Ascii String List Lia.
From stdpp Require Import base decidable gmap strings list.

Local Open Scope string_scope.
Local Open Scope Z_scope.

(** ** Constants of the system headers (Linux values) *)

Definition AF_INET : Z := 2.
Definition SOCK_STREAM : Z := 1.
Definition SOCK_DGRAM : Z := 2.
Definition IFF_LOOPBACK : Z := 8.
Definition IFNAMSIZ : nat := 16.
Definition INET_ADDRSTRLEN : nat := 16.
Definition EINPROGRESS : Z := 115.

Definition nl : string := String "010" EmptyString.

(** ** printf-style formatting *)

Module Fmt.

Definition digit_chars : list ascii := list_ascii_of_string "0123456789abcdef".

Definition digit (d : N) : ascii := nth (N.to_nat d) digit_chars "0"%char.

(** Digits of [n] in [base], most significant first; [fuel] bounds the
    number of digits. *)
Fixpoint digits (fuel : nat) (base n : N) (acc : string) : string :=
  match fuel with
  | O => acc
  | S k =>
      let acc' := String (digit (n mod base)) acc in
      if (n / base =? 0)%N then acc' else digits k base (n / base) acc'
  end.

Definition uint (base n : N) : string :=
  digits (S (N.to_nat (N.log2 n))) base n "".

Fixpoint zeros (k : nat) : string :=
  match k with O => "" | S k' => String "0" (zeros k') end.

(** Zero padding on the left up to a minimum width, as [%0<width>x]. *)
Definition pad0 (width : nat) (s : string) : string :=
  zeros (width - String.length s) +:+ s.

(** [%02x] *)
Definition x02 (n : N) : string := pad0 2 (uint 16 n).

(** [%u] / [%d] on a non-negative value *)
Definition u (n : N) : string := uint 10 n.

End Fmt.

(** [snprintf(buf, size, ...)] stores at most [size - 1] characters. *)
Definition snprintf (size : nat) (formatted : string) : string :=
  substring 0 (size - 1) formatted.

(** [strncpy(dst, src, n)] read back as a C string: the first [n]
    characters of [src] (the kernel terminates [ifr_name] itself). *)
Definition strncpy (src : string) (n : nat) : string := substring 0 n src.

(** ** Data *)

(** [struct sockaddr]: the family and the raw bytes behind it.  For
    [AF_INET] the bytes are those of a [sockaddr_in]: two bytes of port,
    four bytes of address, eight bytes of padding. *)
Record sockaddr := {
  sa_family : Z;
  sa_data : list byte
}.

Definition unsigned_char (l : list byte) (i : nat) : N :=
  Byte.to_N (nth i l x00).

(** [reinterpret_cast<sockaddr_in*>(sa)->sin_addr] *)
Definition sin_addr (sa : sockaddr) : list byte :=
  firstn 4 (skipn 2 (sa_data sa)).

(** One entry of the list [getifaddrs] builds. *)
Record ifaddrs := {
  ifa_name : string;
  ifa_flags : Z;
  ifa_addr : option sockaddr       (* [None] is the null pointer *)
}.

(** [struct NetworkInterface].  [has_internet] is never assigned by the
    program: it stays indeterminate, [None] here. *)
Record NetworkInterface := {
  name : string;
  ip : string;
  mac : string;
  has_internet : option bool
}.

(** Result of a system call that reports failure through [errno]. *)
Inductive sysres (A : Type) :=
  | Done (v : A)
  | Failed (errno : Z).
Arguments Done {A} v.
Arguments Failed {A} errno.

(** What the operating system answers. *)
Record OS := {
  (** [getifaddrs]: the list, or the error *)
  os_getifaddrs : sysres (list ifaddrs);
  (** [socket(domain, type, protocol)] with the given descriptors in use:
      [Some errno] when no socket can be had *)
  os_socket_errno : Z -> Z -> Z -> gset Z -> option Z;
  (** [ioctl(fd, SIOCGIFHWADDR, &ifr)]: [ifr_hwaddr.sa_data] for the
      interface called [ifr_name], or the error *)
  os_SIOCGIFHWADDR : string -> sysres (list byte);
  (** [inet_pton(af, src, dst)]: the return value and the bytes stored *)
  os_inet_pton : Z -> string -> Z * list byte;
  (** [connect(fd, addr)] on a non-blocking socket: [Done 0] or the error *)
  os_connect : Z -> sockaddr -> sysres Z;
  (** [select(fd + 1, NULL, {fd}, NULL, {timeout, 0})]: the return value *)
  os_select : Z -> Z -> Z;
  (** [getsockopt(fd, SOL_SOCKET, SO_ERROR)]: the pending error *)
  os_SO_ERROR : Z -> Z;
  (** [strerror] *)
  os_strerror : Z -> string;
  (** milliseconds of the main thread's clock after which the body of the
      detached thread has run to its end *)
  os_thread_latency : Z
}.

(** The closures the program hands to [std::thread]. *)
Inductive closure :=
  | checkThread_body.     (* [[&] { hasInternet = CheckInternetConnection(); }] *)

(** What the process changes. *)
Record World := {
  open_fds : gset Z;                (* descriptors in use *)
  live_ifaddrs : nat;               (* lists handed out by [getifaddrs], not yet freed *)
  cout : string;
  cerr : string;
  clock : Z;                        (* milliseconds on the main thread *)
  hasInternet : bool;               (* the local of [main] the closure captures *)
  detached : list (Z * closure)     (* running detached threads, with their finishing time *)
}.

(** ** A state monad on [World] *)

Definition M (A : Type) : Type := World -> A * World.

Definition ret {A} (a : A) : M A := fun w => (a, w).

Definition bind {A B} (m : M A) (k : A -> M B) : M B :=
  fun w => let '(a, w') := m w in k a w'.

Declare Scope M_scope.
Delimit Scope M_scope with M.
Notation "'let*' x ':=' c 'in' k" := (bind c (fun x => k))
  (at level 10, x pattern, c at level 100, k at level 200) : M_scope.
Notation "c ';;' k" := (bind c (fun _ => k))
  (at level 100, k at level 200, right associativity) : M_scope.
Local Open Scope M_scope.

Definition modify (f : World -> World) : M unit := fun w => (tt, f w).
Definition gets {A} (f : World -> A) : M A := fun w => (f w, w).

Definition set_open_fds (f : gset Z -> gset Z) (w : World) : World :=
  {| open_fds := f (open_fds w); live_ifaddrs := live_ifaddrs w;
     cout := cout w; cerr := cerr w; clock := clock w;
     hasInternet := hasInternet w; detached := detached w |}.

Definition set_live_ifaddrs (f : nat -> nat) (w : World) : World :=
  {| open_fds := open_fds w; live_ifaddrs := f (live_ifaddrs w);
     cout := cout w; cerr := cerr w; clock := clock w;
     hasInternet := hasInternet w; detached := detached w |}.

Definition set_cout (f : string -> string) (w : World) : World :=
  {| open_fds := open_fds w; live_ifaddrs := live_ifaddrs w;
     cout := f (cout w); cerr := cerr w; clock := clock w;
     hasInternet := hasInternet w; detached := detached w |}.

Definition set_cerr (f : string -> string) (w : World) : World :=
  {| open_fds := open_fds w; live_ifaddrs := live_ifaddrs w;
     cout := cout w; cerr := f (cerr w); clock := clock w;
     hasInternet := hasInternet w; detached := detached w |}.

Definition set_clock (f : Z -> Z) (w : World) : World :=
  {| open_fds := open_fds w; live_ifaddrs := live_ifaddrs w;
     cout := cout w; cerr := cerr w; clock := f (clock w);
     hasInternet := hasInternet w; detached := detached w |}.

Definition set_hasInternet (b : bool) (w : World) : World :=
  {| open_fds := open_fds w; live_ifaddrs := live_ifaddrs w;
     cout := cout w; cerr := cerr w; clock := clock w;
     hasInternet := b; detached := detached w |}.

Definition set_detached (f : list (Z * closure) -> list (Z * closure))
    (w : World) : World :=
  {| open_fds := open_fds w; live_ifaddrs := live_ifaddrs w;
     cout := cout w; cerr := cerr w; clock := clock w;
     hasInternet := hasInternet w; detached := f (detached w) |}.

(** [std::cout << s] and [std::cerr << s] *)
Definition cout_put (s : string) : M unit := modify (set_cout (fun o => o +:+ s)).
Definition cerr_put (s : string) : M unit := modify (set_cerr (fun o => o +:+ s)).

(** ** System calls *)

(** The lowest descriptor not in use: the one POSIX hands out. *)
Fixpoint lowest_from (fuel : nat) (n : Z) (fds : gset Z) : Z :=
  match fuel with
  | O => n
  | S k => if decide (n ∈ fds) then lowest_from k (n + 1) fds else n
  end.

Definition lowest_free (fds : gset Z) : Z := lowest_from (size fds) 0 fds.

Section Syscalls.

Context (os : OS).

(** [socket]: the new descriptor, or -1 with [errno]. *)
Definition sys_socket (domain type protocol : Z) : M (Z * Z) := fun w =>
  match os_socket_errno os domain type protocol (open_fds w) with
  | Some e => ((-1, e), w)
  | None =>
      let fd := lowest_free (open_fds w) in
      ((fd, 0), set_open_fds (fun fds => {[fd]} ∪ fds) w)
  end.

Definition sys_close (fd : Z) : M unit :=
  modify (set_open_fds (fun fds => fds ∖ {[fd]})).

Definition sys_getifaddrs : M (sysres (list ifaddrs)) := fun w =>
  match os_getifaddrs os with
  | Done l => (Done l, set_live_ifaddrs S w)
  | Failed e => (Failed e, w)
  end.

Definition sys_freeifaddrs : M unit := modify (set_live_ifaddrs Nat.pred).

(** [ioctl(fd, SIOCGIFHWADDR, &ifr)]; a descriptor that is not open
    gives [EBADF]. *)
Definition sys_ioctl_SIOCGIFHWADDR (fd : Z) (ifr_name : string)
  : M (sysres (list byte)) := fun w =>
  if decide (fd ∈ open_fds w) then (os_SIOCGIFHWADDR os ifr_name, w)
  else (Failed 9, w).

(** [connect]: 0, or -1 with [errno]. *)
Definition sys_connect (fd : Z) (addr : sockaddr) : M (Z * Z) :=
  ret (match os_connect os fd addr with
       | Done _ => (0, 0)
       | Failed e => (-1, e)
       end).

(** [fcntl(fd, F_SETFL, fcntl(fd, F_GETFL, 0) | O_NONBLOCK)]: nothing the
    program reads back; the answers of [os_connect] and [os_select] are
    those of a non-blocking socket. *)
Definition sys_fcntl_O_NONBLOCK (fd : Z) : M unit := ret tt.

Definition sys_select_writable (fd timeout : Z) : M Z :=
  ret (os_select os fd timeout).

(** [getsockopt(fd, SOL_SOCKET, SO_ERROR, &error, &len)]: what the call
    stores in [error].  The program does not look at its return value. *)
Definition sys_getsockopt_SO_ERROR (fd : Z) : M Z :=
  ret (os_SO_ERROR os fd).

End Syscalls.

(** ** The program *)

Definition empty (s : string) : bool :=
  match s with EmptyString => true | String _ _ => false end.

(** [inet_ntop(AF_INET, src, dst, INET_ADDRSTRLEN)]: four bytes in dotted
    decimal.  The text always fits the buffer ([inet_ntop_fits] below). *)
Definition inet_ntop (src : list byte) : string :=
  Fmt.u (unsigned_char src 0) +:+ "." +:+ Fmt.u (unsigned_char src 1) +:+ "."
  +:+ Fmt.u (unsigned_char src 2) +:+ "." +:+ Fmt.u (unsigned_char src 3).

(** ["%02x:%02x:%02x:%02x:%02x:%02x"] on [mac[0]] ... [mac[5]] *)
Definition format_mac (mac : list byte) : string :=
  Fmt.x02 (unsigned_char mac 0) +:+ ":" +:+ Fmt.x02 (unsigned_char mac 1) +:+ ":"
  +:+ Fmt.x02 (unsigned_char mac 2) +:+ ":" +:+ Fmt.x02 (unsigned_char mac 3) +:+ ":"
  +:+ Fmt.x02 (unsigned_char mac 4) +:+ ":" +:+ Fmt.x02 (unsigned_char mac 5).

(** [htons(port)] as it lies in memory: the 16 bits of [port], high byte
    first. *)
Definition htons (port : N) : list byte :=
  let p := (port mod 65536)%N in
  [default x00 (Byte.of_N (p / 256)); default x00 (Byte.of_N (p mod 256))].

(** [(hasInternet ? "Available" : "Unavailable")], line 160 *)
Definition Internet_Access (hasInternet : bool) : string :=
  if hasInternet then "Available" else "Unavailable".

(** The address [CheckInternetConnection] connects to: [servaddr] after
    lines 97-103, port 53 and the bytes [inet_pton] stored. *)
Definition servaddr (in_addr : list byte) : sockaddr :=
  {| sa_family := AF_INET;
     sa_data := (htons 53 ++ in_addr ++ repeat x00 8)%list |}.

Section Program.

Context (os : OS).

(** The body of the [for] loop of [GetNetworkInfo], lines 41-79, for one
    entry of the list. *)
Definition GetNetworkInfo_entry (ifa : ifaddrs)
    (interfaces : list NetworkInterface) : M (list NetworkInterface) :=
  match ifa_addr ifa with
  | None => ret interfaces                                    (* continue *)
  | Some addr =>
      if negb (Z.land (ifa_flags ifa) IFF_LOOPBACK =? 0)
      then ret interfaces                                     (* continue *)
      else
        let iface_name := ifa_name ifa in
        let iface_ip :=
          if sa_family addr =? AF_INET then inet_ntop (sin_addr addr) else "" in
        let* (sockfd, _) := sys_socket os AF_INET SOCK_DGRAM 0 in
        let* iface_mac :=
          (if 0 <=? sockfd then
             let ifr_name := strncpy iface_name (IFNAMSIZ - 1) in
             let* r := sys_ioctl_SIOCGIFHWADDR os sockfd ifr_name in
             let m := match r with
                      | Done hwaddr => snprintf 18 (format_mac hwaddr)
                      | Failed _ => ""
                      end in
             sys_close sockfd ;; ret m
           else ret "") in
        if negb (empty iface_ip) && negb (empty iface_mac)
        then ret (interfaces ++
                    [{| name := iface_name; ip := iface_ip; mac := iface_mac;
                        has_internet := None |}])%list
        else ret interfaces
  end.

Fixpoint GetNetworkInfo_loop (ifa : list ifaddrs)
    (interfaces : list NetworkInterface) : M (list NetworkInterface) :=
  match ifa with
  | [] => ret interfaces
  | e :: ifa_next =>
      let* interfaces' := GetNetworkInfo_entry e interfaces in
      GetNetworkInfo_loop ifa_next interfaces'
  end.

Definition GetNetworkInfo : M (list NetworkInterface) :=
  let* r := sys_getifaddrs os in
  match r with
  | Failed errno =>
      cerr_put "Error: getifaddrs() failed (" ;;
      cerr_put (os_strerror os errno) ;;
      cerr_put (")" +:+ nl) ;;
      ret []
  | Done ifaddr =>
      let* interfaces := GetNetworkInfo_loop ifaddr [] in
      sys_freeifaddrs ;;
      ret interfaces
  end.

Definition CheckInternetConnection (timeout : Z) : M bool :=
  let* (sockfd, errno) := sys_socket os AF_INET SOCK_STREAM 0 in
  if sockfd <? 0 then
    cerr_put "Error: socket creation failed (" ;;
    cerr_put (os_strerror os errno) ;;
    cerr_put (")" +:+ nl) ;;
    ret false
  else
    let '(rc, in_addr) := os_inet_pton os AF_INET "8.8.8.8" in
    if rc <=? 0 then
      cerr_put ("Error: invalid address" +:+ nl) ;;
      sys_close sockfd ;;
      ret false
    else
      sys_fcntl_O_NONBLOCK sockfd ;;
      let* (c, errno) := sys_connect os sockfd (servaddr in_addr) in
      if (c <? 0) && negb (errno =? EINPROGRESS) then
        sys_close sockfd ;;
        ret false
      else
        let* r := sys_select_writable os sockfd timeout in
        let* error := sys_getsockopt_SO_ERROR os sockfd in
        sys_close sockfd ;;
        ret ((0 <? r) && (error =? 0)).

(** *** Threads and time *)

Definition run_closure (c : closure) : M unit :=
  match c with
  | checkThread_body =>
      let* b := CheckInternetConnection 2 in       (* default argument *)
      modify (set_hasInternet b)
  end.

(** [std::thread t(c); t.detach();]: the thread runs on its own and is
    through [os_thread_latency] milliseconds from now. *)
Definition thread_detach (c : closure) : M unit := fun w =>
  (tt, set_detached (fun l => (l ++ [(clock w + os_thread_latency os, c)])%list) w).

Fixpoint run_all (l : list (Z * closure)) : M unit :=
  match l with
  | [] => ret tt
  | (_, c) :: l' => run_closure c ;; run_all l'
  end.

(** The detached threads that are through by now take effect. *)
Definition run_due : M unit := fun w =>
  let due := List.filter (fun tc => fst tc <=? clock w) (detached w) in
  let rest := List.filter (fun tc => negb (fst tc <=? clock w)) (detached w) in
  run_all due (set_detached (fun _ => rest) w).

(** [std::this_thread::sleep_for(std::chrono::seconds(s))] *)
Definition sleep_for_seconds (s : Z) : M unit :=
  modify (set_clock (fun t => t + 1000 * s)) ;;
  run_due.

Fixpoint print_interfaces (interfaces : list NetworkInterface) : M unit :=
  match interfaces with
  | [] => ret tt
  | iface :: rest =>
      cout_put "Interface: " ;; cout_put (name iface) ;; cout_put nl ;;
      cout_put "  IPv4:    " ;; cout_put (ip iface) ;; cout_put nl ;;
      cout_put "  MAC:     " ;; cout_put (mac iface) ;; cout_put nl ;;
      cout_put ("  --------" +:+ nl) ;;
      print_interfaces rest
  end.

Definition main : M Z :=
  let* interfaces := GetNetworkInfo in
  modify (set_hasInternet false) ;;
  thread_detach checkThread_body ;;
  cout_put ("Network Interfaces:" +:+ nl) ;;
  print_interfaces interfaces ;;
  sleep_for_seconds 2 ;;
  cout_put (nl +:+ "Internet Access: ") ;;
  let* h := gets hasInternet in
  cout_put (Internet_Access h) ;;
  cout_put nl ;;
  ret 0.

End Program.

(** ** Reading the results

    Pure descriptions of what the loop of [GetNetworkInfo] computes, and the
    predicates the properties below are stated with.  [GetNetworkInfo_spec]
    proves that the program computes them. *)

(** [iface.ip] after lines 49-55. *)
Definition ipv4_of (addr : sockaddr) : string :=
  if sa_family addr =? AF_INET then inet_ntop (sin_addr addr) else "".

(** [iface.mac] after lines 58-73, with the descriptors [fds] in use. *)
Definition mac_of (os : OS) (fds : gset Z) (iface_name : string) : string :=
  match os_socket_errno os AF_INET SOCK_DGRAM 0 fds with
  | Some _ => ""
  | None =>
      match os_SIOCGIFHWADDR os (strncpy iface_name (IFNAMSIZ - 1)) with
      | Done hwaddr => snprintf 18 (format_mac hwaddr)
      | Failed _ => ""
      end
  end.

(** The entry carries the loopback flag. *)
Definition loopback (ifa : ifaddrs) : bool :=
  negb (Z.land (ifa_flags ifa) IFF_LOOPBACK =? 0).

Definition option_list {A} (o : option A) : list A :=
  match o with Some a => [a] | None => [] end.

(** The record one entry of the list contributes, if any. *)
Definition record_of (os : OS) (fds : gset Z) (ifa : ifaddrs)
  : option NetworkInterface :=
  match ifa_addr ifa with
  | None => None
  | Some addr =>
      if loopback ifa then None
      else if negb (empty (ipv4_of addr))
              && negb (empty (mac_of os fds (ifa_name ifa)))
      then Some {| name := ifa_name ifa; ip := ipv4_of addr;
                   mac := mac_of os fds (ifa_name ifa); has_internet := None |}
      else None
  end.

(** An entry that ends up in the result: not loopback, with an IPv4 address,
    and a hardware address that could be read. *)
Definition kept (os : OS) (fds : gset Z) (ifa : ifaddrs) : bool :=
  match ifa_addr ifa with
  | None => false
  | Some addr =>
      negb (loopback ifa) && (sa_family addr =? AF_INET)
      && match os_socket_errno os AF_INET SOCK_DGRAM 0 fds,
               os_SIOCGIFHWADDR os (strncpy (ifa_name ifa) (IFNAMSIZ - 1)) with
         | None, Done _ => true
         | _, _ => false
         end
  end.

Definition lower_hex (c : ascii) : bool :=
  let n := N_of_ascii c in
  ((48 <=? n) && (n <=? 57) || (97 <=? n) && (n <=? 102))%N.

(** [pairs] groups of two lowercase hexadecimal digits, with a colon between
    one group and the next. *)
Fixpoint colon_hex_pairs (pairs : nat) (s : string) : bool :=
  match pairs, s with
  | S k, String a (String b rest) =>
      lower_hex a && lower_hex b &&
      match k, rest with
      | O, EmptyString => true
      | S _, String ":" rest' => colon_hex_pairs k rest'
      | _, _ => false
      end
  | _, _ => false
  end.

Definition is_hardware_address (s : string) : bool := colon_hex_pairs 6 s.

(** The connection attempt is under way: [connect] returned 0, or failed
    with [EINPROGRESS]. *)
Definition connect_initiated (os : OS) (fd : Z) (addr : sockaddr) : Prop :=
  match os_connect os fd addr with
  | Done _ => True
  | Failed e => e = EINPROGRESS
  end.

(** Two calls of the enumeration, one right after the other. *)
Definition GetNetworkInfo_twice (os : OS)
  : M (list NetworkInterface * list NetworkInterface) :=
  let* first := GetNetworkInfo os in
  let* second := GetNetworkInfo os in
  ret (first, second).

(** ** The report as a text

    What the output statements of [main], lines 149-160, write one after
    the other, as one string. *)

Definition interface_block (iface : NetworkInterface) : string :=
  "Interface: " +:+ name iface +:+ nl
  +:+ "  IPv4:    " +:+ ip iface +:+ nl
  +:+ "  MAC:     " +:+ mac iface +:+ nl
  +:+ "  --------" +:+ nl.

Fixpoint interface_blocks (interfaces : list NetworkInterface) : string :=
  match interfaces with
  | [] => ""
  | iface :: rest => interface_block iface +:+ interface_blocks rest
  end.

Definition report (interfaces : list NetworkInterface) (hasInternet : bool)
  : string :=
  "Network Interfaces:" +:+ nl
  +:+ interface_blocks interfaces
  +:+ nl +:+ "Internet Access: " +:+ Internet_Access hasInternet +:+ nl.

(** ** Reading formatted texts back

    Readers for the two number formats, used to tell the texts of different
    addresses apart. *)

Definition digit_value (c : ascii) : option N :=
  let n := N_of_ascii c in
  if ((48 <=? n) && (n <=? 57))%N then Some (n - 48)%N
  else if ((97 <=? n) && (n <=? 102))%N then Some (n - 87)%N
  else None.

(** The number written by the leading decimal digits of [s], on top of
    [acc], and what follows them. *)
Fixpoint read_decimal (s : string) (acc : N) : N * string :=
  match s with
  | EmptyString => (acc, EmptyString)
  | String c s' =>
      match digit_value c with
      | Some d => if (d <? 10)%N then read_decimal s' (10 * acc + d)%N
                  else (acc, s)
      | None => (acc, s)
      end
  end.

(** The number written by two hexadecimal digits. *)
Definition read_hex_pair (a b : ascii) : option N :=
  match digit_value a, digit_value b with
  | Some h, Some l => Some (16 * h + l)%N
  | _, _ => None
  end.

(** ** print_col: the file name of a log line

    [src/print_col/main.cpp] builds its log lines with macros; the one with
    an algorithm in it is [__SHORT_FILE__], the file name without its
    directories. *)

Module print_col.

(** [strrchr(s, c)]: the part of [s] from the last [c] on, or the null
    pointer.  The terminator counts as part of the string, so a search for
    the zero character finds the empty rest. *)
Fixpoint strrchr (s : string) (c : ascii) : option string :=
  match s with
  | EmptyString => if Ascii.eqb c "000" then Some EmptyString else None
  | String a s' =>
      match strrchr s' c with
      | Some p => Some p
      | None => if Ascii.eqb a c then Some s else None
      end
  end.

(** [p + 1] on a pointer into a string. *)
Definition plus_1 (p : string) : string :=
  match p with
  | EmptyString => EmptyString
  | String _ rest => rest
  end.

(** [(strrchr(__FILE__, '/') ? strrchr(__FILE__, '/') + 1 : __FILE__)] *)
Definition SHORT_FILE (FILE : string) : string :=
  match strrchr FILE "/" with
  | Some p => plus_1 p
  | None => FILE
  end.

(** [c] occurs in [s]. *)
Fixpoint has_char (c : ascii) (s : string) : bool :=
  match s with
  | EmptyString => false
  | String a s' => Ascii.eqb a c || has_char c s'
  end.

End print_col.

(** ** Sample environments *)

Module Sample.

(** An [AF_INET] address as [getifaddrs] hands it out. *)
Definition inet (a b c d : byte) : option sockaddr :=
  Some {| sa_family := AF_INET;
          sa_data := [x00; x00; a; b; c; d;
                      x00; x00; x00; x00; x00; x00; x00; x00] |}.

(** An [AF_PACKET] address (family 17). *)
Definition packet : option sockaddr :=
  Some {| sa_family := 17; sa_data := repeat x00 14 |}.

Definition UP_LOOPBACK_RUNNING : Z := 73.                    (* 0x49 *)
Definition UP_BROADCAST_RUNNING_MULTICAST : Z := 4163.       (* 0x1043 *)

(** The loopback interface, an Ethernet adapter with two IPv4 addresses,
    a tunnel without address and a bridge whose hardware address cannot
    be read. *)
Definition interfaces : list ifaddrs :=
  [ {| ifa_name := "lo"; ifa_flags := UP_LOOPBACK_RUNNING;
       ifa_addr := packet |};
    {| ifa_name := "eth0"; ifa_flags := UP_BROADCAST_RUNNING_MULTICAST;
       ifa_addr := packet |};
    {| ifa_name := "tun0"; ifa_flags := UP_BROADCAST_RUNNING_MULTICAST;
       ifa_addr := None |};
    {| ifa_name := "lo"; ifa_flags := UP_LOOPBACK_RUNNING;
       ifa_addr := inet x7f x00 x00 x01 |};
    {| ifa_name := "eth0"; ifa_flags := UP_BROADCAST_RUNNING_MULTICAST;
       ifa_addr := inet xc0 xa8 x01 x0a |};
    {| ifa_name := "eth0"; ifa_flags := UP_BROADCAST_RUNNING_MULTICAST;
       ifa_addr := inet x0a x00 x00 x05 |};
    {| ifa_name := "br0"; ifa_flags := UP_BROADCAST_RUNNING_MULTICAST;
       ifa_addr := inet xac x11 x00 x01 |} ].

Definition hwaddr (ifr_name : string) : sysres (list byte) :=
  if String.eqb ifr_name "eth0"
  then Done [x00; x1a; x2b; x3c; x4d; xff;
             x00; x00; x00; x00; x00; x00; x00; x00]
  else if String.eqb ifr_name "lo"
  then Done (repeat x00 14)
  else Failed 19.                                            (* ENODEV *)

Definition make (ifaddr : sysres (list ifaddrs)) (socket_errno : option Z)
    (pton : Z) (conn : sysres Z) (sel so_error latency : Z) : OS :=
  {| os_getifaddrs := ifaddr;
     os_socket_errno := λ _ _ _ _, socket_errno;
     os_SIOCGIFHWADDR := hwaddr;
     os_inet_pton := λ _ _, (pton, [x08; x08; x08; x08]);
     os_connect := λ _ _, conn;
     os_select := λ _ _, sel;
     os_SO_ERROR := λ _, so_error;
     os_strerror := λ e, "error " +:+ Fmt.u (Z.to_N e);
     os_thread_latency := latency |}.

(** A host that is on line: the connection is in progress, then the
    socket is writable with no pending error, after 30 ms. *)
Definition online : OS :=
  make (Done interfaces) None 1 (Failed EINPROGRESS) 1 0 30.

(** The same host when the answer takes five seconds. *)
Definition slow : OS :=
  make (Done interfaces) None 1 (Failed EINPROGRESS) 1 0 5000.

(** [select] is interrupted by a signal. *)
Definition interrupted : OS :=
  make (Done interfaces) None 1 (Failed EINPROGRESS) (-1) 0 30.

(** No descriptor is left (EMFILE), and [getifaddrs] fails (ENOMEM). *)
Definition exhausted : OS :=
  make (Failed 12) (Some 24) 1 (Failed EINPROGRESS) 1 0 30.

(** [inet_pton] rejects the address. *)
Definition no_address : OS :=
  make (Done interfaces) None 0 (Failed EINPROGRESS) 1 0 30.

(** The interfaces are there, but no descriptor is left for a socket. *)
Definition no_descriptor : OS :=
  make (Done interfaces) (Some 24) 1 (Failed EINPROGRESS) 1 0 30.

(** The connection is refused: the socket becomes writable with
    ECONNREFUSED pending. *)
Definition refused : OS :=
  make (Done interfaces) None 1 (Failed EINPROGRESS) 1 111 30.

(** The process as it starts: standard input, output and error open. *)
Definition boot : World :=
  {| open_fds := {[0; 1; 2]}; live_ifaddrs := 0; cout := ""; cerr := "";
     clock := 0; hasInternet := false; detached := [] |}.

End Sample.

(** * Properties *)

(** ** The program on the sample host *)

Example x02_10 : Fmt.x02 10 = "0a".
Proof. reflexivity. Qed.

Example x02_255 : Fmt.x02 255 = "ff".
Proof. reflexivity. Qed.

Example inet_ntop_192_168_1_10 : inet_ntop [xc0; xa8; x01; x0a] = "192.168.1.10".
Proof. reflexivity. Qed.

Example servaddr_8_8_8_8 :
  sa_data (servaddr [x08; x08; x08; x08])
  = [x00; x35; x08; x08; x08; x08; x00; x00; x00; x00; x00; x00; x00; x00].
Proof. reflexivity. Qed.

Example lowest_free_0_1_2_4 : lowest_free {[0; 1; 2; 4]} = 3.
Proof. vm_compute. reflexivity. Qed.

(** Of the seven entries only the two IPv4 entries of [eth0] give a record:
    [lo] carries the loopback flag, [tun0] has no address, the packet
    entries have no IPv4 address and the hardware address of [br0] cannot
    be read. *)
Example GetNetworkInfo_online :
  fst (GetNetworkInfo Sample.online Sample.boot)
  = [ {| name := "eth0"; ip := "192.168.1.10"; mac := "00:1a:2b:3c:4d:ff";
         has_internet := None |};
      {| name := "eth0"; ip := "10.0.0.5"; mac := "00:1a:2b:3c:4d:ff";
         has_internet := None |} ].
Proof. vm_compute. reflexivity. Qed.

Example CheckInternetConnection_online :
  fst (CheckInternetConnection Sample.online 2 Sample.boot) = true.
Proof. vm_compute. reflexivity. Qed.

Example CheckInternetConnection_exhausted :
  CheckInternetConnection Sample.exhausted 2 Sample.boot
  = (false,
     set_cerr (λ _, "Error: socket creation failed (error 24)" +:+ nl) Sample.boot).
Proof. vm_compute. reflexivity. Qed.

Example main_online :
  fst (main Sample.online Sample.boot) = 0
  ∧ cout (snd (main Sample.online Sample.boot))
    = "Network Interfaces:" +:+ nl
      +:+ "Interface: eth0" +:+ nl
      +:+ "  IPv4:    192.168.1.10" +:+ nl
      +:+ "  MAC:     00:1a:2b:3c:4d:ff" +:+ nl
      +:+ "  --------" +:+ nl
      +:+ "Interface: eth0" +:+ nl
      +:+ "  IPv4:    10.0.0.5" +:+ nl
      +:+ "  MAC:     00:1a:2b:3c:4d:ff" +:+ nl
      +:+ "  --------" +:+ nl
      +:+ nl +:+ "Internet Access: Available" +:+ nl.
Proof. split; vm_compute; reflexivity. Qed.

Example main_exhausted :
  fst (main Sample.exhausted Sample.boot) = 0
  ∧ cout (snd (main Sample.exhausted Sample.boot))
    = "Network Interfaces:" +:+ nl
      +:+ nl +:+ "Internet Access: Unavailable" +:+ nl
  ∧ cerr (snd (main Sample.exhausted Sample.boot))
    = "Error: getifaddrs() failed (error 12)" +:+ nl
      +:+ "Error: socket creation failed (error 24)" +:+ nl.
Proof. repeat split; vm_compute; reflexivity. Qed.

(** ** The descriptor table *)

Section Descriptors.

Implicit Types (fds : gset Z) (fd n : Z).

Lemma lowest_from_fresh fuel : ∀ n fds,
  (size (filter (λ x, (n ≤ x)%Z) fds) ≤ fuel)%nat →
  lowest_from fuel n fds ∉ fds.
Proof.
  induction fuel as [|fuel IH]; intros n fds Hsize; simpl.
  - assert (Hempty : filter (λ x, n ≤ x) fds ≡ ∅).
    { apply size_empty_iff. lia. }
    intros Hin. apply (not_elem_of_empty (C:=gset Z) n).
    rewrite <- Hempty. apply elem_of_filter. split; [lia | done].
  - destruct (decide (n ∈ fds)) as [Hin|]; [|done].
    apply IH.
    assert (Hsub : filter (λ x, n + 1 ≤ x) fds ⊂ filter (λ x, n ≤ x) fds).
    { split.
      - intros x [Hx ?]%elem_of_filter. apply elem_of_filter. split; [lia|done].
      - intros Hsup. specialize (Hsup n).
        rewrite !elem_of_filter in Hsup.
        destruct Hsup as [? _]; [split; [lia | done] | lia]. }
    apply subset_size in Hsub. lia.
Qed.

(** The descriptor [socket] hands out was not in use. *)
Lemma lowest_free_fresh fds : lowest_free fds ∉ fds.
Proof.
  apply lowest_from_fresh, subseteq_size.
  intros x [_ ?]%elem_of_filter. done.
Qed.

Lemma lowest_from_ge fuel : ∀ n fds, n ≤ lowest_from fuel n fds.
Proof.
  induction fuel as [|fuel IH]; intros n fds; simpl; [lia|].
  destruct (decide (n ∈ fds)); [|lia]. specialize (IH (n + 1) fds). lia.
Qed.

Lemma lowest_free_nonneg fds : 0 ≤ lowest_free fds.
Proof. apply lowest_from_ge. Qed.

(** Opening a fresh descriptor and closing it again gives the table back. *)
Lemma open_then_close fds :
  ({[lowest_free fds]} ∪ fds) ∖ {[lowest_free fds]} = fds.
Proof.
  pose proof (lowest_free_fresh fds) as Hfresh.
  apply set_eq. intros x.
  rewrite elem_of_difference, elem_of_union, elem_of_singleton.
  split; [intros [[?|?] ?]; done | intros Hx; split; [by right | by intros ->]].
Qed.

Lemma socket_then_close (w : World) :
  set_open_fds (λ fds, fds ∖ {[lowest_free (open_fds w)]})
    (set_open_fds (λ fds, {[lowest_free (open_fds w)]} ∪ fds) w) = w.
Proof.
  destruct w as [fds ? ? ? ? ? ?]. unfold set_open_fds. simpl.
  by rewrite open_then_close.
Qed.

Lemma getifaddrs_then_free (w : World) :
  set_live_ifaddrs Nat.pred (set_live_ifaddrs S w) = w.
Proof. by destruct w. Qed.

End Descriptors.

(** ** Formatting *)

Section Formatting.

(** [%02x] turns a byte into two lowercase hexadecimal digits: checked on
    each of the 256 bytes. *)
Lemma x02_byte_digits (b : byte) :
  match Fmt.x02 (Byte.to_N b) with
  | String c1 (String c2 EmptyString) => lower_hex c1 && lower_hex c2
  | _ => false
  end = true.
Proof. destruct b; vm_compute; reflexivity. Qed.

Lemma x02_byte (b : byte) :
  ∃ c1 c2, Fmt.x02 (Byte.to_N b) = String c1 (String c2 "")
           ∧ lower_hex c1 = true ∧ lower_hex c2 = true.
Proof.
  pose proof (x02_byte_digits b) as Hdigits.
  destruct (Fmt.x02 (Byte.to_N b)) as [|c1 [|c2 [|c3 rest]]]; try done.
  apply andb_true_iff in Hdigits. by exists c1, c2.
Qed.

Lemma format_mac_is_hardware_address (hwaddr : list byte) :
  is_hardware_address (format_mac hwaddr) = true
  ∧ String.length (format_mac hwaddr) = 17%nat.
Proof.
  unfold format_mac, unsigned_char.
  destruct (x02_byte (nth 0 hwaddr x00)) as (a0 & b0 & -> & Ha0 & Hb0).
  destruct (x02_byte (nth 1 hwaddr x00)) as (a1 & b1 & -> & Ha1 & Hb1).
  destruct (x02_byte (nth 2 hwaddr x00)) as (a2 & b2 & -> & Ha2 & Hb2).
  destruct (x02_byte (nth 3 hwaddr x00)) as (a3 & b3 & -> & Ha3 & Hb3).
  destruct (x02_byte (nth 4 hwaddr x00)) as (a4 & b4 & -> & Ha4 & Hb4).
  destruct (x02_byte (nth 5 hwaddr x00)) as (a5 & b5 & -> & Ha5 & Hb5).
  split; [|reflexivity].
  unfold is_hardware_address. simpl.
  rewrite Ha0, Hb0, Ha1, Hb1, Ha2, Hb2, Ha3, Hb3, Ha4, Hb4, Ha5, Hb5.
  reflexivity.
Qed.

Lemma substring_all (s : string) : substring 0 (String.length s) s = s.
Proof. induction s as [|c s IH]; simpl; [done | by rewrite IH]. Qed.

(** The buffer of 18 characters holds the whole text. *)
Lemma snprintf_mac (hwaddr : list byte) :
  snprintf 18 (format_mac hwaddr) = format_mac hwaddr.
Proof.
  unfold snprintf.
  destruct (format_mac_is_hardware_address hwaddr) as [_ Hlen].
  change (18 - 1)%nat with 17%nat. rewrite <- Hlen. apply substring_all.
Qed.

Lemma empty_false_length (s : string) :
  (0 < String.length s)%nat → empty s = false.
Proof. destruct s; simpl; [lia | done]. Qed.

Lemma digits_nonempty fuel : ∀ base n acc,
  empty acc = false → empty (Fmt.digits fuel base n acc) = false.
Proof.
  induction fuel as [|fuel IH]; intros base n acc Hacc; simpl; [done|].
  destruct (n / base =? 0)%N; [done | by apply IH].
Qed.

Lemma uint_nonempty base n : empty (Fmt.uint base n) = false.
Proof.
  unfold Fmt.uint. simpl. destruct (n / base =? 0)%N; [done|].
  by apply digits_nonempty.
Qed.

Lemma empty_append (s t : string) : empty s = false → empty (s +:+ t) = false.
Proof. by destruct s. Qed.

Lemma inet_ntop_nonempty (src : list byte) : empty (inet_ntop src) = false.
Proof. unfold inet_ntop. apply empty_append, uint_nonempty. Qed.

Lemma u_byte (b : byte) : (String.length (Fmt.u (Byte.to_N b)) ≤ 3)%nat.
Proof. destruct b; vm_compute; lia. Qed.

Lemma length_append (s t : string) :
  String.length (s +:+ t) = (String.length s + String.length t)%nat.
Proof. induction s as [|c s IH]; simpl; [done | by rewrite IH]. Qed.

(** [INET_ADDRSTRLEN] characters are enough for the text and its
    terminator. *)
Lemma inet_ntop_fits (src : list byte) :
  (String.length (inet_ntop src) < INET_ADDRSTRLEN)%nat.
Proof.
  unfold inet_ntop, unsigned_char, INET_ADDRSTRLEN.
  rewrite !length_append. simpl.
  pose proof (u_byte (nth 0 src x00)). pose proof (u_byte (nth 1 src x00)).
  pose proof (u_byte (nth 2 src x00)). pose proof (u_byte (nth 3 src x00)).
  lia.
Qed.

Lemma mac_of_cases os fds n :
  (mac_of os fds n = "" ∧
     match os_socket_errno os AF_INET SOCK_DGRAM 0 fds,
           os_SIOCGIFHWADDR os (strncpy n (IFNAMSIZ - 1)) with
     | None, Done _ => False
     | _, _ => True
     end)
  ∨ (∃ hwaddr, os_socket_errno os AF_INET SOCK_DGRAM 0 fds = None
               ∧ os_SIOCGIFHWADDR os (strncpy n (IFNAMSIZ - 1)) = Done hwaddr
               ∧ mac_of os fds n = format_mac hwaddr).
Proof.
  unfold mac_of.
  destruct (os_socket_errno os AF_INET SOCK_DGRAM 0 fds); [by left|].
  destruct (os_SIOCGIFHWADDR os _) as [hwaddr|]; [|by left].
  right. exists hwaddr. by rewrite snprintf_mac.
Qed.

End Formatting.

(** ** What [GetNetworkInfo] computes *)

Section Enumeration.

Context (os : OS).

(** One turn of the loop appends the record of the entry, if any, and
    leaves the world as it was. *)
Lemma GetNetworkInfo_entry_spec ifa interfaces w :
  GetNetworkInfo_entry os ifa interfaces w
  = ((interfaces ++ option_list (record_of os (open_fds w) ifa))%list, w).
Proof.
  unfold GetNetworkInfo_entry, record_of, mac_of, ipv4_of, loopback.
  destruct (ifa_addr ifa) as [addr|]; [|by rewrite app_nil_r].
  destruct (negb _); [by rewrite app_nil_r|].
  unfold bind, sys_socket.
  destruct (os_socket_errno os AF_INET SOCK_DGRAM 0 (open_fds w)) as [e|].
  - simpl. rewrite andb_false_r. by rewrite app_nil_r.
  - pose proof (lowest_free_nonneg (open_fds w)) as Hfd.
    apply Z.leb_le in Hfd. rewrite Hfd.
    unfold sys_ioctl_SIOCGIFHWADDR, sys_close, modify, ret.
    destruct (decide _) as [_|Hn]; [|exfalso; apply Hn; simpl; set_solver].
    rewrite socket_then_close.
    destruct (negb (empty _) && negb (empty _)); simpl;
      [done | by rewrite app_nil_r].
Qed.

Lemma GetNetworkInfo_loop_spec ifa : ∀ interfaces w,
  GetNetworkInfo_loop os ifa interfaces w
  = ((interfaces ++ omap (record_of os (open_fds w)) ifa)%list, w).
Proof.
  induction ifa as [|e ifa IH]; intros interfaces w; simpl.
  - by rewrite app_nil_r.
  - unfold bind. rewrite GetNetworkInfo_entry_spec, IH, <- app_assoc.
    by destruct (record_of os (open_fds w) e).
Qed.

Lemma GetNetworkInfo_spec w :
  GetNetworkInfo os w =
  match os_getifaddrs os with
  | Done ifaddr => (omap (record_of os (open_fds w)) ifaddr, w)
  | Failed errno =>
      ([], set_cerr (λ o, ((o +:+ "Error: getifaddrs() failed (")
                             +:+ os_strerror os errno) +:+ (")" +:+ nl)) w)
  end.
Proof.
  unfold GetNetworkInfo, bind, sys_getifaddrs.
  destruct (os_getifaddrs os) as [ifaddr|errno].
  - rewrite GetNetworkInfo_loop_spec. simpl.
    unfold sys_freeifaddrs, modify, ret. by rewrite getifaddrs_then_free.
  - by destruct w.
Qed.

End Enumeration.

(** ** What [CheckInternetConnection] computes *)

Section Probe.

Context (os : OS).

Lemma append_cons (c : ascii) (s t : string) :
  String c s +:+ t = String c (s +:+ t).
Proof. reflexivity. Qed.

Lemma append_nil_r (s : string) : s +:+ "" = s.
Proof. induction s as [|c s IH]; [done | by rewrite append_cons, IH]. Qed.

Lemma append_assoc (s t v : string) : (s +:+ t) +:+ v = s +:+ t +:+ v.
Proof. induction s as [|c s IH]; [done | by rewrite !append_cons, IH]. Qed.

Lemma set_cerr_nil w : set_cerr (λ o, o +:+ "") w = w.
Proof. destruct w. unfold set_cerr. simpl. by rewrite append_nil_r. Qed.

Lemma socket_log_close (f : string → string) (w : World) :
  set_open_fds (λ fds, fds ∖ {[lowest_free (open_fds w)]})
    (set_cerr f (set_open_fds (λ fds, {[lowest_free (open_fds w)]} ∪ fds) w))
  = set_cerr f w.
Proof.
  destruct w as [fds ? ? ? ? ? ?]. unfold set_open_fds, set_cerr. simpl.
  by rewrite open_then_close.
Qed.

(** The answer of the probe, case by case, and the world it leaves: the
    one it found, but for what it wrote to [cerr]. *)
Lemma CheckInternetConnection_spec timeout w :
  CheckInternetConnection os timeout w =
  match os_socket_errno os AF_INET SOCK_STREAM 0 (open_fds w) with
  | Some e =>
      (false,
       set_cerr (λ o, ((o +:+ "Error: socket creation failed (")
                         +:+ os_strerror os e) +:+ (")" +:+ nl)) w)
  | None =>
      let fd := lowest_free (open_fds w) in
      let pton := os_inet_pton os AF_INET "8.8.8.8" in
      if fst pton <=? 0 then
        (false, set_cerr (λ o, o +:+ ("Error: invalid address" +:+ nl)) w)
      else
        match os_connect os fd (servaddr (snd pton)) with
        | Failed e =>
            if e =? EINPROGRESS
            then ((0 <? os_select os fd timeout) && (os_SO_ERROR os fd =? 0), w)
            else (false, w)
        | Done _ =>
            ((0 <? os_select os fd timeout) && (os_SO_ERROR os fd =? 0), w)
        end
  end.
Proof.
  unfold CheckInternetConnection, bind, sys_socket.
  destruct (os_socket_errno os AF_INET SOCK_STREAM 0 (open_fds w)) as [e|].
  - by destruct w.
  - pose proof (lowest_free_nonneg (open_fds w)) as Hfd.
    apply Z.ltb_ge in Hfd. rewrite Hfd. cbv zeta.
    destruct (os_inet_pton os AF_INET "8.8.8.8") as [rc in_addr]. simpl fst.
    simpl snd. destruct (rc <=? 0).
    + unfold cerr_put, sys_close, modify, ret. by rewrite socket_log_close.
    + unfold sys_fcntl_O_NONBLOCK, sys_connect, sys_select_writable,
        sys_getsockopt_SO_ERROR, sys_close, modify, ret.
      destruct (os_connect os _ _) as [v|e]; simpl.
      * by rewrite socket_then_close.
      * destruct (e =? EINPROGRESS); simpl; by rewrite socket_then_close.
Qed.

Lemma CheckInternetConnection_world timeout w :
  ∃ log, snd (CheckInternetConnection os timeout w) = set_cerr (λ o, o +:+ log) w.
Proof.
  rewrite CheckInternetConnection_spec.
  destruct (os_socket_errno _ _ _ _ _) as [e|]; simpl.
  - exists ("Error: socket creation failed (" +:+ os_strerror os e +:+ ")" +:+ nl).
    destruct w; unfold set_cerr; simpl. by rewrite !append_assoc.
  - destruct (_ <=? 0); simpl; [by eexists|].
    exists "". rewrite set_cerr_nil.
    destruct (os_connect _ _ _) as [|e]; [done|by destruct (e =? _)].
Qed.

End Probe.

(** ** The reachability probe *)

(** C1. The probe answers [true] (reachable) exactly when a socket and the
    target address could be set up, the connection attempt was initiated
    (an attempt in progress counts), [select] reported the socket writable
    within [timeout] seconds and the pending error of the socket is zero.
    Once the socket and the address are there, a connection attempt that
    fails at once with another error, no writability within the bound, or a
    pending error each give [false] (unreachable). *)
Theorem CheckInternetConnection_reachable_iff (os : OS) (timeout : Z) (w : World) :
  let fd := lowest_free (open_fds w) in
  let pton := os_inet_pton os AF_INET "8.8.8.8" in
  (fst (CheckInternetConnection os timeout w) = true
   ↔ os_socket_errno os AF_INET SOCK_STREAM 0 (open_fds w) = None
     ∧ 0 < fst pton
     ∧ connect_initiated os fd (servaddr (snd pton))
     ∧ 0 < os_select os fd timeout
     ∧ os_SO_ERROR os fd = 0)
  ∧ (¬ connect_initiated os fd (servaddr (snd pton))
     ∨ os_select os fd timeout ≤ 0
     ∨ os_SO_ERROR os fd ≠ 0
     → fst (CheckInternetConnection os timeout w) = false).
Proof.
  intros fd pton.
  assert (Hiff :
    fst (CheckInternetConnection os timeout w) = true
    ↔ os_socket_errno os AF_INET SOCK_STREAM 0 (open_fds w) = None
      ∧ 0 < fst pton
      ∧ connect_initiated os fd (servaddr (snd pton))
      ∧ 0 < os_select os fd timeout
      ∧ os_SO_ERROR os fd = 0).
  { rewrite CheckInternetConnection_spec. fold fd pton.
    unfold connect_initiated.
    destruct (os_socket_errno _ _ _ _ _) as [e|]; simpl.
    { split; [done | by intros [? _]]. }
    destruct (Z.leb_spec (fst pton) 0); simpl.
    { split; [done | intros (_ & ? & _); lia]. }
    destruct (os_connect os fd (servaddr (snd pton))) as [v|e]; simpl.
    - rewrite andb_true_iff, Z.ltb_lt, Z.eqb_eq.
      split; [by intros [? ?] | by intros (_ & _ & _ & ? & ?)].
    - destruct (Z.eqb_spec e EINPROGRESS); simpl.
      + rewrite andb_true_iff, Z.ltb_lt, Z.eqb_eq.
        split; [by intros [? ?] | by intros (_ & _ & _ & ? & ?)].
      + split; [done | by intros (_ & _ & ? & _)]. }
  split; [exact Hiff|].
  intros Hfail. apply not_true_is_false. rewrite Hiff.
  intros (_ & _ & Hc & Hs & He). destruct Hfail as [?|[?|?]]; [done|lia|done].
Qed.

Lemma CheckInternetConnection_reachable_iff_witness :
  fst (CheckInternetConnection Sample.online 2 Sample.boot) = true
  ∧ fst (CheckInternetConnection Sample.interrupted 2 Sample.boot) = false.
Proof.
  split.
  - apply (proj1 (CheckInternetConnection_reachable_iff Sample.online 2 Sample.boot)).
    vm_compute. repeat split; reflexivity.
  - apply (proj2 (CheckInternetConnection_reachable_iff Sample.interrupted 2 Sample.boot)).
    right; left. vm_compute. discriminate.
Defined.

(** C10. When the wait itself fails ([select] returns a negative value, as
    when a signal interrupts it) the probe answers [false], as it does when
    the wait times out; an answer [true] needs a strictly positive return of
    [select] and a pending error of zero. *)
Theorem CheckInternetConnection_select_failed (os : OS) (timeout : Z) (w : World) :
  let fd := lowest_free (open_fds w) in
  (os_select os fd timeout < 0 → fst (CheckInternetConnection os timeout w) = false)
  ∧ (os_select os fd timeout = 0 → fst (CheckInternetConnection os timeout w) = false)
  ∧ (fst (CheckInternetConnection os timeout w) = true
     → 0 < os_select os fd timeout ∧ os_SO_ERROR os fd = 0).
Proof.
  intros fd.
  assert (Htrue : fst (CheckInternetConnection os timeout w) = true
                  → 0 < os_select os fd timeout ∧ os_SO_ERROR os fd = 0).
  { rewrite CheckInternetConnection_spec. fold fd.
    destruct (os_socket_errno _ _ _ _ _) as [e|]; simpl; [done|].
    destruct (_ <=? 0); simpl; [done|].
    destruct (os_connect _ _ _) as [v|e]; simpl.
    - rewrite andb_true_iff, Z.ltb_lt, Z.eqb_eq. done.
    - destruct (e =? EINPROGRESS); simpl; [|done].
      rewrite andb_true_iff, Z.ltb_lt, Z.eqb_eq. done. }
  repeat split; try (apply Htrue; done).
  - intros Hneg. apply not_true_is_false. intros [? _]%Htrue. lia.
  - intros Hzero. apply not_true_is_false. intros [? _]%Htrue. lia.
Qed.

Lemma CheckInternetConnection_select_failed_witness :
  fst (CheckInternetConnection Sample.interrupted 2 Sample.boot) = false
  ∧ (0 < os_select Sample.online (lowest_free (open_fds Sample.boot)) 2
     ∧ os_SO_ERROR Sample.online (lowest_free (open_fds Sample.boot)) = 0).
Proof.
  split.
  - apply (proj1 (CheckInternetConnection_select_failed Sample.interrupted 2 Sample.boot)).
    vm_compute. reflexivity.
  - apply (proj2 (proj2 (CheckInternetConnection_select_failed Sample.online 2 Sample.boot))).
    vm_compute. reflexivity.
Defined.

(** C7. When the probe cannot be set up, because no socket can be created
    or because the target address cannot be built, [CheckInternetConnection]
    returns [false], the value the report renders as "Unavailable". *)
Theorem CheckInternetConnection_setup_failure (os : OS) (timeout : Z) (w : World) :
  (∃ e, os_socket_errno os AF_INET SOCK_STREAM 0 (open_fds w) = Some e)
  ∨ fst (os_inet_pton os AF_INET "8.8.8.8") ≤ 0 →
  fst (CheckInternetConnection os timeout w) = false
  ∧ Internet_Access (fst (CheckInternetConnection os timeout w)) = "Unavailable".
Proof.
  intros Hsetup.
  assert (Hfalse : fst (CheckInternetConnection os timeout w) = false).
  { rewrite CheckInternetConnection_spec.
    destruct (os_socket_errno _ _ _ _ _) as [e|]; simpl; [done|].
    destruct Hsetup as [[e He]|Hpton]; [done|].
    apply Z.leb_le in Hpton. by rewrite Hpton. }
  by rewrite Hfalse.
Qed.

Lemma CheckInternetConnection_setup_failure_witness :
  (fst (CheckInternetConnection Sample.exhausted 2 Sample.boot) = false
   ∧ Internet_Access (fst (CheckInternetConnection Sample.exhausted 2 Sample.boot))
     = "Unavailable")
  ∧ (fst (CheckInternetConnection Sample.no_address 2 Sample.boot) = false
     ∧ Internet_Access (fst (CheckInternetConnection Sample.no_address 2 Sample.boot))
       = "Unavailable").
Proof.
  split.
  - apply (CheckInternetConnection_setup_failure Sample.exhausted 2 Sample.boot).
    left. exists 24. vm_compute. reflexivity.
  - apply (CheckInternetConnection_setup_failure Sample.no_address 2 Sample.boot).
    right. vm_compute. discriminate.
Defined.

(** ** Descriptors are given back *)

Lemma GetNetworkInfo_world (os : OS) (w : World) :
  ∃ log, snd (GetNetworkInfo os w) = set_cerr (λ o, o +:+ log) w.
Proof.
  rewrite GetNetworkInfo_spec. destruct (os_getifaddrs os) as [ifaddr|e]; simpl.
  - exists "". by rewrite set_cerr_nil.
  - exists ("Error: getifaddrs() failed (" +:+ os_strerror os e +:+ ")" +:+ nl).
    destruct w; unfold set_cerr; simpl. by rewrite !append_assoc.
Qed.

(** C8. Every socket the program creates for a moment is closed again
    before the function that created it returns, whatever path is taken:
    after [CheckInternetConnection], after one turn of the loop of
    [GetNetworkInfo] and after [GetNetworkInfo] itself the descriptors in
    use are those in use before, and the descriptor [socket] handed out is
    not among them. *)
Theorem sockets_closed_on_every_path (os : OS) (w : World) :
  (∀ timeout,
     open_fds (snd (CheckInternetConnection os timeout w)) = open_fds w
     ∧ lowest_free (open_fds w)
         ∉ open_fds (snd (CheckInternetConnection os timeout w)))
  ∧ (∀ ifa interfaces,
       open_fds (snd (GetNetworkInfo_entry os ifa interfaces w)) = open_fds w
       ∧ lowest_free (open_fds w)
           ∉ open_fds (snd (GetNetworkInfo_entry os ifa interfaces w)))
  ∧ open_fds (snd (GetNetworkInfo os w)) = open_fds w.
Proof.
  pose proof (lowest_free_fresh (open_fds w)) as Hfresh.
  split; [|split].
  - intros timeout.
    destruct (CheckInternetConnection_world os timeout w) as [log ->].
    by destruct w.
  - intros ifa interfaces. rewrite GetNetworkInfo_entry_spec. done.
  - destruct (GetNetworkInfo_world os w) as [log ->]. by destruct w.
Qed.

(** ** The records of the enumeration *)

Lemma record_of_Some os fds ifa r :
  record_of os fds ifa = Some r →
  ∃ addr, ifa_addr ifa = Some addr ∧ loopback ifa = false
          ∧ name r = ifa_name ifa
          ∧ ip r = ipv4_of addr ∧ empty (ip r) = false
          ∧ mac r = mac_of os fds (ifa_name ifa) ∧ empty (mac r) = false.
Proof.
  unfold record_of. destruct (ifa_addr ifa) as [addr|]; [|done].
  destruct (loopback ifa); [done|].
  destruct (empty (ipv4_of addr)) eqn:Hip; [done|].
  destruct (empty (mac_of os fds (ifa_name ifa))) eqn:Hmac; [done|].
  simpl. intros [= <-]. exists addr. simpl. done.
Qed.

Lemma empty_true (s : string) : empty s = true ↔ s = "".
Proof. by destruct s. Qed.

(** C2. In every record [GetNetworkInfo] returns, [ip] and [mac] are not
    empty, and [mac] is six pairs of lowercase hexadecimal digits joined by
    colons. *)
Theorem GetNetworkInfo_records_complete (os : OS) (w : World) :
  Forall (λ r, ip r ≠ "" ∧ mac r ≠ "" ∧ is_hardware_address (mac r) = true)
         (fst (GetNetworkInfo os w)).
Proof.
  rewrite GetNetworkInfo_spec.
  destruct (os_getifaddrs os) as [ifaddr|e]; simpl; [|constructor].
  apply Forall_forall. intros r (ifa & _ & Hr)%list_elem_of_omap.
  apply record_of_Some in Hr as (addr & _ & _ & _ & _ & Hip & Hmac & Hne).
  split; [|split].
  - intros Hnil. by rewrite Hnil in Hip.
  - intros Hnil. by rewrite Hnil in Hne.
  - rewrite Hmac in *.
    destruct (mac_of_cases os (open_fds w) (ifa_name ifa))
      as [[Hnil _]|(hwaddr & _ & _ & ->)].
    + rewrite Hnil in Hne. done.
    + apply format_mac_is_hardware_address.
Qed.

Lemma mac_of_nonempty os fds n hwaddr :
  os_socket_errno os AF_INET SOCK_DGRAM 0 fds = None →
  os_SIOCGIFHWADDR os (strncpy n (IFNAMSIZ - 1)) = Done hwaddr →
  mac_of os fds n = format_mac hwaddr ∧ empty (mac_of os fds n) = false.
Proof.
  intros Hsock Hioctl. unfold mac_of. rewrite Hsock, Hioctl, snprintf_mac.
  split; [done|]. apply empty_false_length.
  destruct (format_mac_is_hardware_address hwaddr) as [_ ->]. lia.
Qed.

(** An entry contributes a record exactly when it is [kept]. *)
Lemma record_of_kept os fds ifa :
  record_of os fds ifa
  = if kept os fds ifa
    then Some {| name := ifa_name ifa;
                 ip := default "" (ipv4_of <$> ifa_addr ifa);
                 mac := mac_of os fds (ifa_name ifa);
                 has_internet := None |}
    else None.
Proof.
  unfold record_of, kept. destruct (ifa_addr ifa) as [addr|]; [|done].
  destruct (loopback ifa); [done|]. cbn [negb andb fmap option_fmap option_map default].
  unfold ipv4_of. destruct (sa_family addr =? AF_INET); [|done].
  rewrite inet_ntop_nonempty. cbn [negb andb].
  destruct (mac_of_cases os fds (ifa_name ifa))
    as [[-> Hno]|(hwaddr & Hsock & Hioctl & _)].
  - cbn [empty negb]. destruct (os_socket_errno _ _ _ _ _); [done|].
    by destruct (os_SIOCGIFHWADDR _ _).
  - destruct (mac_of_nonempty _ _ _ _ Hsock Hioctl) as [_ ->].
    by rewrite Hsock, Hioctl.
Qed.

Lemma names_of_records os fds (ifaddr : list ifaddrs) :
  name <$> omap (record_of os fds) ifaddr
  = ifa_name <$> List.filter (kept os fds) ifaddr.
Proof.
  induction ifaddr as [|ifa ifaddr IH]; [done|]. csimpl.
  rewrite record_of_kept. destruct (kept os fds ifa); csimpl; by rewrite IH.
Qed.

(** C3, as the program has it.  Nothing is left out for having been seen
    before: every entry that is [kept] (no loopback flag, an IPv4 address,
    a hardware address that could be read) gives one record, in the order
    of the list.  So an interface name occurs once for each of its IPv4
    entries, and the names are all different exactly when no name has two
    entries that are kept. *)
Theorem GetNetworkInfo_one_record_per_IPv4_entry (os : OS) (w : World)
    (ifaddr : list ifaddrs) :
  os_getifaddrs os = Done ifaddr →
  name <$> fst (GetNetworkInfo os w)
    = ifa_name <$> List.filter (kept os (open_fds w)) ifaddr
  ∧ (NoDup (name <$> fst (GetNetworkInfo os w))
     ↔ NoDup (ifa_name <$> List.filter (kept os (open_fds w)) ifaddr)).
Proof.
  intros Hlist. rewrite GetNetworkInfo_spec, Hlist. simpl.
  by rewrite names_of_records.
Qed.

Lemma GetNetworkInfo_one_record_per_IPv4_entry_witness :
  name <$> fst (GetNetworkInfo Sample.online Sample.boot)
    = ifa_name <$> List.filter (kept Sample.online (open_fds Sample.boot))
                     Sample.interfaces
  ∧ (NoDup (name <$> fst (GetNetworkInfo Sample.online Sample.boot))
     ↔ NoDup (ifa_name <$> List.filter (kept Sample.online (open_fds Sample.boot))
                Sample.interfaces)).
Proof.
  apply (GetNetworkInfo_one_record_per_IPv4_entry
           Sample.online Sample.boot Sample.interfaces).
  reflexivity.
Defined.

(** C3, as the specification has it, fails: an adapter with two IPv4
    addresses is reported twice, the second address included. *)
Lemma GetNetworkInfo_reports_eth0_twice :
  name <$> fst (GetNetworkInfo Sample.online Sample.boot) = ["eth0"; "eth0"]
  ∧ ip <$> fst (GetNetworkInfo Sample.online Sample.boot)
    = ["192.168.1.10"; "10.0.0.5"]
  ∧ ¬ NoDup (name <$> fst (GetNetworkInfo Sample.online Sample.boot)).
Proof.
  assert (Hnames :
    name <$> fst (GetNetworkInfo Sample.online Sample.boot) = ["eth0"; "eth0"])
    by (vm_compute; reflexivity).
  split; [exact Hnames|]. split; [vm_compute; reflexivity|].
  rewrite Hnames. intros Hnodup. apply NoDup_cons in Hnodup as [Hnotin _].
  apply Hnotin. by left.
Qed.

(** C5. An entry with the loopback flag, or without address, is passed over
    before anything is done for it; hence every record returned comes from
    an entry of the list that has an address and no loopback flag. *)
Theorem GetNetworkInfo_skips_loopback (os : OS) :
  (∀ ifa interfaces w,
     ifa_addr ifa = None ∨ Z.land (ifa_flags ifa) IFF_LOOPBACK ≠ 0 →
     GetNetworkInfo_entry os ifa interfaces w = (interfaces, w))
  ∧ (∀ w ifaddr,
       os_getifaddrs os = Done ifaddr →
       Forall (λ r, ∃ ifa addr,
                 ifa ∈ ifaddr ∧ ifa_name ifa = name r
                 ∧ ifa_addr ifa = Some addr ∧ ipv4_of addr = ip r
                 ∧ Z.land (ifa_flags ifa) IFF_LOOPBACK = 0)
              (fst (GetNetworkInfo os w))).
Proof.
  split.
  - intros ifa interfaces w Hskip. unfold GetNetworkInfo_entry.
    destruct (ifa_addr ifa) as [addr|]; [|done].
    destruct Hskip as [|Hflag]; [done|].
    apply Z.eqb_neq in Hflag. by rewrite Hflag.
  - intros w ifaddr Hlist. rewrite GetNetworkInfo_spec, Hlist. simpl.
    apply Forall_forall. intros r (ifa & Hin & Hr)%list_elem_of_omap.
    apply record_of_Some in Hr as (addr & Haddr & Hloop & Hname & Hip & _).
    exists ifa, addr. repeat split; try done.
    unfold loopback in Hloop. apply negb_false_iff in Hloop.
    by apply Z.eqb_eq.
Qed.

Lemma GetNetworkInfo_skips_loopback_witness :
  GetNetworkInfo_entry Sample.online
    {| ifa_name := "lo"; ifa_flags := Sample.UP_LOOPBACK_RUNNING;
       ifa_addr := Sample.inet x7f x00 x00 x01 |} [] Sample.boot
  = ([], Sample.boot)
  ∧ Forall (λ r, ∃ ifa addr,
              ifa ∈ Sample.interfaces ∧ ifa_name ifa = name r
              ∧ ifa_addr ifa = Some addr ∧ ipv4_of addr = ip r
              ∧ Z.land (ifa_flags ifa) IFF_LOOPBACK = 0)
           (fst (GetNetworkInfo Sample.online Sample.boot)).
Proof.
  split.
  - apply (proj1 (GetNetworkInfo_skips_loopback Sample.online)).
    right. vm_compute. discriminate.
  - apply (proj2 (GetNetworkInfo_skips_loopback Sample.online)).
    reflexivity.
Defined.

(** ** The report *)

Section Report.

Context (os : OS).

Ltac world_simpl :=
  unfold set_open_fds, set_live_ifaddrs, set_cout, set_cerr, set_clock,
    set_hasInternet, set_detached;
  cbn [open_fds live_ifaddrs cout cerr clock hasInternet detached fst snd].

Lemma cout_put_put (s t : string) (w : World) :
  set_cout (λ o, o +:+ t) (set_cout (λ o, o +:+ s) w)
  = set_cout (λ o, o +:+ s +:+ t) w.
Proof. destruct w. world_simpl. by rewrite append_assoc. Qed.

Lemma print_interfaces_spec interfaces : ∀ w,
  ∃ text, print_interfaces interfaces w = (tt, set_cout (λ o, o +:+ text) w).
Proof.
  induction interfaces as [|iface rest IH]; intros w;
    cbn [print_interfaces].
  - exists "". destruct w. unfold ret. world_simpl. by rewrite append_nil_r.
  - unfold bind, cout_put, modify.
    match goal with |- context [print_interfaces rest ?w'] =>
      destruct (IH w') as [text ->] end.
    rewrite !cout_put_put. by eexists.
Qed.

Lemma run_all_clock l : ∀ w, clock (snd (run_all os l w)) = clock w.
Proof.
  induction l as [|[t c] l IH]; intros w; simpl; [done|].
  unfold bind. destruct c. simpl. unfold bind, modify.
  destruct (CheckInternetConnection os 2 w) as [b w'] eqn:Hprobe.
  rewrite IH. simpl.
  destruct (CheckInternetConnection_world os 2 w) as [log Hw].
  rewrite Hprobe in Hw. simpl in Hw. subst w'. by destruct w.
Qed.

(** What [main] leaves behind, up to the moment it reads [hasInternet]:
    [sleep_for_seconds 2] is the only thing that moves the clock. *)
Lemma main_spec w :
  ∃ before h,
    main os w = (0, h)
    ∧ clock h = clock w + 2000
    ∧ cout h = before +:+ nl +:+ "Internet Access: "
               +:+ Internet_Access (hasInternet h) +:+ nl
    ∧ (detached w = [] → 2000 < os_thread_latency os → hasInternet h = false).
Proof.
  unfold main, bind.
  destruct (GetNetworkInfo os w) as [interfaces w1] eqn:Henum.
  destruct (GetNetworkInfo_world os w) as [log Hw1].
  rewrite Henum in Hw1. simpl in Hw1. subst w1.
  unfold modify, thread_detach, cout_put, modify.
  match goal with |- context [print_interfaces interfaces ?w'] =>
    destruct (print_interfaces_spec interfaces w') as [text ->] end.
  unfold sleep_for_seconds, bind, modify, run_due, gets, ret.
  match goal with |- context [run_all os ?l ?w'] =>
    pose proof (run_all_clock l w') as Hclock;
    destruct (run_all os l w') as [[] h] eqn:Hrun end.
  simpl in Hclock.
  exists (cout h). eexists. split; [reflexivity|]. world_simpl.
  split; [lia|]. split.
  - by rewrite !append_assoc.
  - intros Hnone Hlate. destruct w as [fds live out err t0 h0 det].
    simpl in *. subst det. simpl in Hrun.
    destruct (Z.leb_spec (t0 + os_thread_latency os) (t0 + 1000 * 2)); [lia|].
    simpl in Hrun. unfold ret in Hrun. by injection Hrun as <-.
Qed.

End Report.

(** C4. [main] waits the two seconds of its [sleep_for] and no longer,
    whether the detached probe is through or not; when the probe is not
    through by then, [hasInternet] still holds the [false] it was
    initialised with, and the last line of the report reads
    "Unavailable". *)
Theorem main_waits_two_seconds (os : OS) (w : World) :
  detached w = [] →
  clock (snd (main os w)) = clock w + 2000
  ∧ (2000 < os_thread_latency os →
     hasInternet (snd (main os w)) = false
     ∧ ∃ before,
         cout (snd (main os w))
         = before +:+ nl +:+ "Internet Access: " +:+ "Unavailable" +:+ nl).
Proof.
  intros Hstart.
  destruct (main_spec os w) as (before & h & -> & Hclock & Hcout & Hslot).
  simpl. split; [exact Hclock|].
  intros Hlate. specialize (Hslot Hstart Hlate).
  split; [exact Hslot|].
  exists before. rewrite Hcout, Hslot. reflexivity.
Qed.

Lemma main_waits_two_seconds_witness :
  clock (snd (main Sample.slow Sample.boot)) = clock Sample.boot + 2000
  ∧ hasInternet (snd (main Sample.slow Sample.boot)) = false
  ∧ ∃ before,
      cout (snd (main Sample.slow Sample.boot))
      = before +:+ nl +:+ "Internet Access: " +:+ "Unavailable" +:+ nl.
Proof.
  destruct (main_waits_two_seconds Sample.slow Sample.boot eq_refl)
    as [Hclock Hlate].
  split; [exact Hclock|].
  apply Hlate. vm_compute. reflexivity.
Defined.

(** C6. When [getifaddrs] fails, [GetNetworkInfo] writes what failed, with
    the text of the error, to [cerr] and returns the empty sequence; the
    process is not ended: [main] goes on and returns 0. *)
Theorem GetNetworkInfo_getifaddrs_failed (os : OS) (w : World) (errno : Z) :
  os_getifaddrs os = Failed errno →
  fst (GetNetworkInfo os w) = []
  ∧ cerr (snd (GetNetworkInfo os w))
    = cerr w +:+ "Error: getifaddrs() failed (" +:+ os_strerror os errno
      +:+ ")" +:+ nl
  ∧ ∃ h, main os w = (0, h).
Proof.
  intros Hfail. rewrite GetNetworkInfo_spec, Hfail. simpl.
  split; [done|]. split.
  - by rewrite !append_assoc.
  - destruct (main_spec os w) as (_ & h & Hmain & _). by exists h.
Qed.

Lemma GetNetworkInfo_getifaddrs_failed_witness :
  fst (GetNetworkInfo Sample.exhausted Sample.boot) = []
  ∧ cerr (snd (GetNetworkInfo Sample.exhausted Sample.boot))
    = cerr Sample.boot +:+ "Error: getifaddrs() failed ("
      +:+ os_strerror Sample.exhausted 12 +:+ ")" +:+ nl
  ∧ ∃ h, main Sample.exhausted Sample.boot = (0, h).
Proof.
  apply (GetNetworkInfo_getifaddrs_failed Sample.exhausted Sample.boot 12).
  reflexivity.
Defined.

Lemma GetNetworkInfo_same_fds (os : OS) (w1 w2 : World) :
  open_fds w1 = open_fds w2 →
  fst (GetNetworkInfo os w1) = fst (GetNetworkInfo os w2).
Proof.
  intros Hfds. rewrite !GetNetworkInfo_spec, Hfds.
  by destruct (os_getifaddrs os).
Qed.

(** C9. Two calls of [GetNetworkInfo] in a row, with the same answers of
    the operating system, return the same sequence. *)
Theorem GetNetworkInfo_twice_same (os : OS) (w : World) :
  fst (fst (GetNetworkInfo_twice os w)) = snd (fst (GetNetworkInfo_twice os w)).
Proof.
  unfold GetNetworkInfo_twice, bind, ret.
  destruct (GetNetworkInfo os w) as [first w1] eqn:Hfirst.
  destruct (GetNetworkInfo os w1) as [second w2] eqn:Hsecond. simpl.
  change first with (fst (first, w1)). change second with (fst (second, w2)).
  rewrite <- Hfirst, <- Hsecond. apply GetNetworkInfo_same_fds.
  destruct (GetNetworkInfo_world os w) as [log Hw1].
  rewrite Hfirst in Hw1. simpl in Hw1. subst w1. by destruct w.
Qed.

(** * Further properties *)

(** ** The texts of addresses *)

Section Texts.

Implicit Types (hwaddr src : list byte) (b : byte).

(** Reading the two digits of [%02x] gives the byte back. *)
Lemma read_x02 b :
  match Fmt.x02 (Byte.to_N b) with
  | String c1 (String c2 EmptyString) => read_hex_pair c1 c2
  | _ => None
  end = Some (Byte.to_N b).
Proof. destruct b; vm_compute; reflexivity. Qed.

Lemma to_N_inj b1 b2 : Byte.to_N b1 = Byte.to_N b2 → b1 = b2.
Proof.
  intros Heq. pose proof (Byte.of_to_N b1) as H1.
  rewrite Heq, Byte.of_to_N in H1. congruence.
Qed.

Lemma x02_inj b1 b2 :
  Fmt.x02 (Byte.to_N b1) = Fmt.x02 (Byte.to_N b2) → b1 = b2.
Proof.
  intros Heq. apply to_N_inj.
  pose proof (read_x02 b1) as H1. pose proof (read_x02 b2) as H2.
  rewrite Heq in H1. congruence.
Qed.

Lemma format_mac_bytes hwaddr1 hwaddr2 :
  format_mac hwaddr1 = format_mac hwaddr2 →
  ∀ i, (i < 6)%nat → nth i hwaddr1 x00 = nth i hwaddr2 x00.
Proof.
  unfold format_mac, unsigned_char. intros Heq.
  destruct (x02_byte (nth 0 hwaddr1 x00)) as (a0 & b0 & E0 & _).
  destruct (x02_byte (nth 1 hwaddr1 x00)) as (a1 & b1 & E1 & _).
  destruct (x02_byte (nth 2 hwaddr1 x00)) as (a2 & b2 & E2 & _).
  destruct (x02_byte (nth 3 hwaddr1 x00)) as (a3 & b3 & E3 & _).
  destruct (x02_byte (nth 4 hwaddr1 x00)) as (a4 & b4 & E4 & _).
  destruct (x02_byte (nth 5 hwaddr1 x00)) as (a5 & b5 & E5 & _).
  destruct (x02_byte (nth 0 hwaddr2 x00)) as (c0 & d0 & F0 & _).
  destruct (x02_byte (nth 1 hwaddr2 x00)) as (c1 & d1 & F1 & _).
  destruct (x02_byte (nth 2 hwaddr2 x00)) as (c2 & d2 & F2 & _).
  destruct (x02_byte (nth 3 hwaddr2 x00)) as (c3 & d3 & F3 & _).
  destruct (x02_byte (nth 4 hwaddr2 x00)) as (c4 & d4 & F4 & _).
  destruct (x02_byte (nth 5 hwaddr2 x00)) as (c5 & d5 & F5 & _).
  rewrite E0, E1, E2, E3, E4, E5, F0, F1, F2, F3, F4, F5 in Heq.
  rewrite !append_cons in Heq.
  injection Heq as -> -> -> -> -> -> -> -> -> -> -> ->.
  rewrite <- F0 in E0. rewrite <- F1 in E1. rewrite <- F2 in E2.
  rewrite <- F3 in E3. rewrite <- F4 in E4. rewrite <- F5 in E5.
  intros i Hi.
  destruct i as [|[|[|[|[|[|i]]]]]]; [by apply x02_inj.. | lia].
Qed.

(** X1. Two hardware addresses are written the same way exactly when their
    first six bytes are the same: the text tells the address, and the bytes
    of [sa_data] after the sixth play no part. *)
Theorem format_mac_same_iff hwaddr1 hwaddr2 :
  format_mac hwaddr1 = format_mac hwaddr2
  ↔ ∀ i, (i < 6)%nat → nth i hwaddr1 x00 = nth i hwaddr2 x00.
Proof.
  split; [apply format_mac_bytes|].
  intros Hbytes. unfold format_mac, unsigned_char.
  by rewrite !Hbytes by lia.
Qed.

(** Reading the decimal digits of [%u] gives the byte back and stops at the
    dot, or at the end. *)
Lemma read_u_dot b (rest : string) :
  read_decimal (Fmt.u (Byte.to_N b) +:+ "." +:+ rest) 0
  = (Byte.to_N b, "." +:+ rest).
Proof. destruct b; reflexivity. Qed.

Lemma read_u_end b : read_decimal (Fmt.u (Byte.to_N b)) 0 = (Byte.to_N b, "").
Proof. destruct b; reflexivity. Qed.

Lemma append_nil_l (s : string) : "" +:+ s = s.
Proof. reflexivity. Qed.

Lemma inet_ntop_bytes src1 src2 :
  inet_ntop src1 = inet_ntop src2 →
  ∀ i, (i < 4)%nat → nth i src1 x00 = nth i src2 x00.
Proof.
  unfold inet_ntop, unsigned_char. intros Heq.
  apply (f_equal (λ s, read_decimal s 0)) in Heq.
  rewrite !read_u_dot in Heq. injection Heq as H0 Heq.
  rewrite !append_nil_l in Heq.
  apply (f_equal (λ s, read_decimal s 0)) in Heq.
  rewrite !read_u_dot in Heq. injection Heq as H1 Heq.
  rewrite !append_nil_l in Heq.
  apply (f_equal (λ s, read_decimal s 0)) in Heq.
  rewrite !read_u_dot in Heq. injection Heq as H2 Heq.
  rewrite !append_nil_l in Heq.
  apply (f_equal (λ s, read_decimal s 0)) in Heq.
  rewrite !read_u_end in Heq. injection Heq as H3.
  intros i Hi.
  destruct i as [|[|[|[|i]]]]; [by apply to_N_inj.. | lia].
Qed.

(** X2. Two IPv4 addresses are written the same way by [inet_ntop] exactly
    when their four bytes are the same. *)
Theorem inet_ntop_same_iff src1 src2 :
  inet_ntop src1 = inet_ntop src2
  ↔ ∀ i, (i < 4)%nat → nth i src1 x00 = nth i src2 x00.
Proof.
  split; [apply inet_ntop_bytes|].
  intros Hbytes. unfold inet_ntop, unsigned_char.
  by rewrite !Hbytes by lia.
Qed.

Lemma u_byte_length b :
  (1 ≤ String.length (Fmt.u (Byte.to_N b)) ≤ 3)%nat.
Proof. destruct b; vm_compute; lia. Qed.

(** X3. The buffers are large enough.  The text of a hardware address has
    17 characters, so [snprintf] into [macBuffer[18]] cuts nothing off; the
    text of an IPv4 address has 7 to 15 characters, so it fits
    [ipBuffer[INET_ADDRSTRLEN]] with its terminator. *)
Theorem buffers_large_enough hwaddr src :
  snprintf 18 (format_mac hwaddr) = format_mac hwaddr
  ∧ String.length (format_mac hwaddr) = 17%nat
  ∧ (7 ≤ String.length (inet_ntop src) < INET_ADDRSTRLEN)%nat.
Proof.
  split; [apply snprintf_mac|].
  split; [apply format_mac_is_hardware_address|].
  unfold inet_ntop, unsigned_char, INET_ADDRSTRLEN.
  rewrite !length_append.
  pose proof (u_byte_length (nth 0 src x00)).
  pose proof (u_byte_length (nth 1 src x00)).
  pose proof (u_byte_length (nth 2 src x00)).
  pose proof (u_byte_length (nth 3 src x00)).
  change (String.length ".") with 1%nat. lia.
Qed.

End Texts.

(** ** More on the enumeration *)

Lemma ipv4_of_nonempty addr :
  empty (ipv4_of addr) = false →
  sa_family addr = AF_INET ∧ ipv4_of addr = inet_ntop (sin_addr addr).
Proof.
  unfold ipv4_of. destruct (Z.eqb_spec (sa_family addr) AF_INET); [done|].
  by intros [=].
Qed.

(** X4. Where a record comes from.  Every record [GetNetworkInfo] returns
    stems from an entry of the list with an [AF_INET] address: it has the
    name of the entry, the address written by [inet_ntop], and the hardware
    address the system reported for the first 15 characters of the name,
    written by [format_mac]; [has_internet] is left unset. *)
Theorem GetNetworkInfo_record_origin (os : OS) (w : World)
    (ifaddr : list ifaddrs) :
  os_getifaddrs os = Done ifaddr →
  Forall (λ r, ∃ ifa addr hwaddr,
            ifa ∈ ifaddr ∧ name r = ifa_name ifa
            ∧ ifa_addr ifa = Some addr ∧ sa_family addr = AF_INET
            ∧ ip r = inet_ntop (sin_addr addr)
            ∧ os_socket_errno os AF_INET SOCK_DGRAM 0 (open_fds w) = None
            ∧ os_SIOCGIFHWADDR os (substring 0 15 (name r)) = Done hwaddr
            ∧ mac r = format_mac hwaddr
            ∧ has_internet r = None)
         (fst (GetNetworkInfo os w)).
Proof.
  intros Hlist. rewrite GetNetworkInfo_spec, Hlist. simpl.
  apply Forall_forall. intros r (ifa & Hin & Hr)%list_elem_of_omap.
  assert (Hunset : has_internet r = None).
  { rewrite record_of_kept in Hr. destruct (kept _ _ _); [|done].
    by injection Hr as <-. }
  apply record_of_Some in Hr
    as (addr & Haddr & _ & Hname & Hip & Hipne & Hmac & Hmacne).
  rewrite Hip in Hipne. apply ipv4_of_nonempty in Hipne as [Hfam Htext].
  destruct (mac_of_cases os (open_fds w) (ifa_name ifa))
    as [[Hnil _]|(hwaddr & Hsock & Hioctl & Hfmt)].
  { rewrite Hmac, Hnil in Hmacne. done. }
  exists ifa, addr, hwaddr. rewrite Hname.
  repeat split; try done; congruence.
Qed.

Lemma GetNetworkInfo_record_origin_witness :
  Forall (λ r, ∃ ifa addr hwaddr,
            ifa ∈ Sample.interfaces ∧ name r = ifa_name ifa
            ∧ ifa_addr ifa = Some addr ∧ sa_family addr = AF_INET
            ∧ ip r = inet_ntop (sin_addr addr)
            ∧ os_socket_errno Sample.online AF_INET SOCK_DGRAM 0
                (open_fds Sample.boot) = None
            ∧ os_SIOCGIFHWADDR Sample.online (substring 0 15 (name r))
              = Done hwaddr
            ∧ mac r = format_mac hwaddr
            ∧ has_internet r = None)
         (fst (GetNetworkInfo Sample.online Sample.boot)).
Proof.
  apply (GetNetworkInfo_record_origin Sample.online Sample.boot Sample.interfaces).
  reflexivity.
Defined.

(** X5. Nothing that qualifies is left out.  An entry of the list without
    loopback flag, with an [AF_INET] address, for which a socket can be had
    and the hardware address can be read, has its record in the result. *)
Theorem GetNetworkInfo_reports_entry (os : OS) (w : World)
    (ifaddr : list ifaddrs) (ifa : ifaddrs) (addr : sockaddr)
    (hwaddr : list byte) :
  os_getifaddrs os = Done ifaddr →
  ifa ∈ ifaddr →
  ifa_addr ifa = Some addr →
  Z.land (ifa_flags ifa) IFF_LOOPBACK = 0 →
  sa_family addr = AF_INET →
  os_socket_errno os AF_INET SOCK_DGRAM 0 (open_fds w) = None →
  os_SIOCGIFHWADDR os (substring 0 15 (ifa_name ifa)) = Done hwaddr →
  {| name := ifa_name ifa; ip := inet_ntop (sin_addr addr);
     mac := format_mac hwaddr; has_internet := None |}
  ∈ fst (GetNetworkInfo os w).
Proof.
  intros Hlist Hin Haddr Hflag Hfam Hsock Hioctl.
  rewrite GetNetworkInfo_spec, Hlist. simpl.
  apply list_elem_of_omap. exists ifa. split; [done|].
  destruct (mac_of_nonempty os (open_fds w) (ifa_name ifa) hwaddr Hsock Hioctl)
    as [Hmac Hne].
  unfold record_of, loopback, ipv4_of.
  apply Z.eqb_eq in Hflag, Hfam.
  rewrite Haddr, Hflag, Hfam, inet_ntop_nonempty, Hne, Hmac. reflexivity.
Qed.

Lemma GetNetworkInfo_reports_entry_witness :
  {| name := "eth0"; ip := inet_ntop [x0a; x00; x00; x05];
     mac := format_mac [x00; x1a; x2b; x3c; x4d; xff;
                        x00; x00; x00; x00; x00; x00; x00; x00];
     has_internet := None |}
  ∈ fst (GetNetworkInfo Sample.online Sample.boot).
Proof.
  apply (GetNetworkInfo_reports_entry Sample.online Sample.boot
           Sample.interfaces
           {| ifa_name := "eth0";
              ifa_flags := Sample.UP_BROADCAST_RUNNING_MULTICAST;
              ifa_addr := Sample.inet x0a x00 x00 x05 |}
           {| sa_family := AF_INET;
              sa_data := [x00; x00; x0a; x00; x00; x05;
                          x00; x00; x00; x00; x00; x00; x00; x00] |}
           [x00; x1a; x2b; x3c; x4d; xff;
            x00; x00; x00; x00; x00; x00; x00; x00]);
    try reflexivity.
  unfold Sample.interfaces. do 5 apply list_elem_of_further.
  apply list_elem_of_here.
Defined.

(** X6. Failed lookups are silent.  When [getifaddrs] succeeds the call
    leaves the world as it found it, nothing written and the list freed,
    however the hardware address lookups end; when no socket can be had for
    them, or when every query fails, the result is empty. *)
Theorem GetNetworkInfo_lookup_failures_silent (os : OS) (w : World)
    (ifaddr : list ifaddrs) :
  os_getifaddrs os = Done ifaddr →
  snd (GetNetworkInfo os w) = w
  ∧ (os_socket_errno os AF_INET SOCK_DGRAM 0 (open_fds w) ≠ None →
     fst (GetNetworkInfo os w) = [])
  ∧ ((∀ ifr_name, ∃ e, os_SIOCGIFHWADDR os ifr_name = Failed e) →
     fst (GetNetworkInfo os w) = []).
Proof.
  intros Hlist. rewrite GetNetworkInfo_spec, Hlist. simpl.
  split; [done|].
  assert (Hnone : (∀ ifa, ifa ∈ ifaddr → kept os (open_fds w) ifa = false) →
                  omap (record_of os (open_fds w)) ifaddr = []).
  { clear Hlist. induction ifaddr as [|ifa ifaddr IH]; intros Hk; [done|].
    csimpl. rewrite record_of_kept, Hk by apply list_elem_of_here.
    apply IH. intros ifa' Hin. apply Hk. by apply list_elem_of_further. }
  split.
  - intros Hsock. apply Hnone. intros ifa _. unfold kept.
    destruct (ifa_addr ifa); [|done].
    destruct (os_socket_errno _ _ _ _ _); [|done].
    by rewrite andb_false_r.
  - intros Hfail. apply Hnone. intros ifa _. unfold kept.
    destruct (ifa_addr ifa); [|done].
    destruct (Hfail (strncpy (ifa_name ifa) (IFNAMSIZ - 1))) as [e ->].
    destruct (os_socket_errno _ _ _ _ _); by rewrite andb_false_r.
Qed.

Lemma GetNetworkInfo_lookup_failures_silent_witness :
  snd (GetNetworkInfo Sample.no_descriptor Sample.boot) = Sample.boot
  ∧ fst (GetNetworkInfo Sample.no_descriptor Sample.boot) = [].
Proof.
  destruct (GetNetworkInfo_lookup_failures_silent
              Sample.no_descriptor Sample.boot Sample.interfaces eq_refl)
    as (Hworld & Hsock & _).
  split; [exact Hworld|]. apply Hsock. discriminate.
Defined.

Ltac world_fields :=
  unfold set_open_fds, set_live_ifaddrs, set_cout, set_cerr, set_clock,
    set_hasInternet, set_detached;
  cbn [open_fds live_ifaddrs cout cerr clock hasInternet detached fst snd].

(** X7. [GetNetworkInfo] writes to [cerr] only.  Whatever the system
    answers, the call leaves [cout], the clock, the threads and the
    descriptors as they were, has freed the list it was given, and at most
    adds text to the end of [cerr]. *)
Theorem GetNetworkInfo_touches_only_cerr (os : OS) (w : World) :
  let w' := snd (GetNetworkInfo os w) in
  cout w' = cout w
  ∧ live_ifaddrs w' = live_ifaddrs w
  ∧ open_fds w' = open_fds w
  ∧ clock w' = clock w
  ∧ hasInternet w' = hasInternet w
  ∧ detached w' = detached w
  ∧ ∃ log, cerr w' = cerr w +:+ log.
Proof.
  destruct (GetNetworkInfo_world os w) as [log Hw]. simpl. rewrite Hw.
  destruct w. world_fields. repeat split. by exists log.
Qed.

Lemma mac_of_truncated os fds (n1 n2 : string) :
  substring 0 15 n1 = substring 0 15 n2 → mac_of os fds n1 = mac_of os fds n2.
Proof.
  intros Heq. unfold mac_of, strncpy.
  change (IFNAMSIZ - 1)%nat with 15%nat. by rewrite Heq.
Qed.

(** X8. One name, one hardware address.  The query for the hardware
    address is made with the first 15 characters of the interface name
    ([IFNAMSIZ - 1]), so two records of one snapshot whose names agree on
    their first 15 characters, all the more two records with the same name,
    carry the same [mac]. *)
Theorem GetNetworkInfo_same_name_same_mac (os : OS) (w : World)
    (r1 r2 : NetworkInterface) :
  r1 ∈ fst (GetNetworkInfo os w) →
  r2 ∈ fst (GetNetworkInfo os w) →
  substring 0 15 (name r1) = substring 0 15 (name r2) →
  mac r1 = mac r2.
Proof.
  rewrite GetNetworkInfo_spec.
  destruct (os_getifaddrs os) as [ifaddr|e]; simpl;
    [|by intros ?%elem_of_nil].
  intros (ifa1 & _ & Hr1)%list_elem_of_omap (ifa2 & _ & Hr2)%list_elem_of_omap.
  apply record_of_Some in Hr1 as (_ & _ & _ & Hn1 & _ & _ & -> & _).
  apply record_of_Some in Hr2 as (_ & _ & _ & Hn2 & _ & _ & -> & _).
  rewrite Hn1, Hn2. apply mac_of_truncated.
Qed.

Lemma GetNetworkInfo_same_name_same_mac_witness :
  mac {| name := "eth0"; ip := "192.168.1.10"; mac := "00:1a:2b:3c:4d:ff";
         has_internet := None |}
  = mac {| name := "eth0"; ip := "10.0.0.5"; mac := "00:1a:2b:3c:4d:ff";
           has_internet := None |}.
Proof.
  apply (GetNetworkInfo_same_name_same_mac Sample.online Sample.boot).
  - rewrite GetNetworkInfo_online. apply list_elem_of_here.
  - rewrite GetNetworkInfo_online. apply list_elem_of_further, list_elem_of_here.
  - reflexivity.
Defined.

(** ** More on the probe *)

(** X9. What the probe writes.  [CheckInternetConnection] never writes to
    [cout].  When no socket can be created it adds one line with the text
    of the error to [cerr]; when the address is refused it adds the line
    "Error: invalid address"; once the socket and the address are there it
    leaves the world as it found it, whether the host is reached or not:
    a refused connection or a timeout is not logged. *)
Theorem CheckInternetConnection_log (os : OS) (timeout : Z) (w : World) :
  let w' := snd (CheckInternetConnection os timeout w) in
  cout w' = cout w
  ∧ (∀ e, os_socket_errno os AF_INET SOCK_STREAM 0 (open_fds w) = Some e →
       w' = set_cerr (λ o, o +:+ "Error: socket creation failed ("
                             +:+ os_strerror os e +:+ ")" +:+ nl) w)
  ∧ (os_socket_errno os AF_INET SOCK_STREAM 0 (open_fds w) = None →
     fst (os_inet_pton os AF_INET "8.8.8.8") ≤ 0 →
     w' = set_cerr (λ o, o +:+ "Error: invalid address" +:+ nl) w)
  ∧ (os_socket_errno os AF_INET SOCK_STREAM 0 (open_fds w) = None →
     0 < fst (os_inet_pton os AF_INET "8.8.8.8") →
     w' = w).
Proof.
  simpl. split.
  { destruct (CheckInternetConnection_world os timeout w) as [log ->].
    by destruct w. }
  rewrite CheckInternetConnection_spec.
  split; [|split].
  - intros e ->. simpl. destruct w. world_fields. by rewrite !append_assoc.
  - intros -> Hpton. apply Z.leb_le in Hpton. simpl. by rewrite Hpton.
  - intros -> Hpton. simpl.
    destruct (Z.leb_spec (fst (os_inet_pton os AF_INET "8.8.8.8")) 0); [lia|].
    destruct (os_connect _ _ _) as [|e]; [done|].
    by destruct (e =? EINPROGRESS).
Qed.

Lemma CheckInternetConnection_log_witness :
  snd (CheckInternetConnection Sample.exhausted 2 Sample.boot)
  = set_cerr (λ o, o +:+ "Error: socket creation failed ("
                     +:+ os_strerror Sample.exhausted 24 +:+ ")" +:+ nl)
      Sample.boot
  ∧ snd (CheckInternetConnection Sample.no_address 2 Sample.boot)
    = set_cerr (λ o, o +:+ "Error: invalid address" +:+ nl) Sample.boot
  ∧ snd (CheckInternetConnection Sample.refused 2 Sample.boot) = Sample.boot.
Proof.
  split; [|split].
  - apply (proj1 (proj2 (CheckInternetConnection_log
                           Sample.exhausted 2 Sample.boot)) 24).
    reflexivity.
  - apply (proj1 (proj2 (proj2 (CheckInternetConnection_log
                                  Sample.no_address 2 Sample.boot)))).
    + reflexivity.
    + vm_compute. discriminate.
  - apply (proj2 (proj2 (proj2 (CheckInternetConnection_log
                                  Sample.refused 2 Sample.boot)))).
    + reflexivity.
    + vm_compute. reflexivity.
Defined.

(** ** More on the report *)

Section Report_text.

Context (os : OS).

Lemma print_interfaces_text interfaces : ∀ w,
  print_interfaces interfaces w
  = (tt, set_cout (λ o, o +:+ interface_blocks interfaces) w).
Proof.
  induction interfaces as [|iface rest IH]; intros w;
    cbn [print_interfaces interface_blocks].
  - unfold ret. destruct w. world_fields. by rewrite append_nil_r.
  - unfold bind, cout_put, modify. rewrite IH, !cout_put_put.
    unfold interface_block. rewrite !append_assoc. reflexivity.
Qed.

Lemma CheckInternetConnection_same_fds timeout (w1 w2 : World) :
  open_fds w1 = open_fds w2 →
  fst (CheckInternetConnection os timeout w1)
  = fst (CheckInternetConnection os timeout w2).
Proof.
  intros Hfds. rewrite !CheckInternetConnection_spec, Hfds.
  destruct (os_socket_errno _ _ _ _ _); [done|]. simpl.
  destruct (_ <=? 0); [done|].
  destruct (os_connect _ _ _) as [|e]; [done|]. by destruct (e =? _).
Qed.

Lemma run_all_keeps l : ∀ w,
  cout (snd (run_all os l w)) = cout w
  ∧ open_fds (snd (run_all os l w)) = open_fds w.
Proof.
  induction l as [|[t c] l IH]; intros w; cbn [run_all]; [done|].
  unfold bind. destruct c. cbn [run_closure]. unfold bind, modify.
  destruct (CheckInternetConnection os 2 w) as [b w'] eqn:Hprobe.
  destruct (IH (set_hasInternet b w')) as [-> ->].
  destruct (CheckInternetConnection_world os 2 w) as [log Hw].
  rewrite Hprobe in Hw. simpl in Hw. subst w'. by destruct w.
Qed.

Lemma main_cout (w : World) :
  fst (main os w) = 0
  ∧ cout (snd (main os w))
    = cout w +:+ report (fst (GetNetworkInfo os w))
                   (hasInternet (snd (main os w))).
Proof.
  unfold main, bind.
  destruct (GetNetworkInfo os w) as [interfaces w1] eqn:Henum.
  destruct (GetNetworkInfo_world os w) as [log Hw1].
  rewrite Henum in Hw1. simpl in Hw1. subst w1.
  unfold modify, thread_detach, cout_put, modify.
  rewrite print_interfaces_text.
  unfold sleep_for_seconds, bind, modify, run_due, gets, ret.
  match goal with |- context [run_all os ?l ?w'] =>
    destruct (run_all_keeps l w') as [Hcout _];
    destruct (run_all os l w') as [[] h] end.
  simpl in Hcout. cbn [fst snd]. split; [done|].
  world_fields. rewrite Hcout. destruct w. world_fields.
  unfold report. rewrite !append_assoc. reflexivity.
Qed.

(** X10. The report.  [main] returns 0 and adds to [cout] the heading, one
    block of four lines for each record of [GetNetworkInfo], in its order,
    an empty line and the line on the access to the Internet, and nothing
    else; this whatever the system answers. *)
Theorem main_report (w : World) :
  fst (main os w) = 0
  ∧ cout (snd (main os w))
    = cout w +:+ report (fst (GetNetworkInfo os w))
                   (hasInternet (snd (main os w))).
Proof. apply main_cout. Qed.

(** X11. The probe that is through in time decides the last line.  When
    [main] starts with no other thread and the detached thread is through
    within the two seconds of the wait, [hasInternet] holds what
    [CheckInternetConnection], called with its default of 2 seconds,
    returned, and the report says so. *)
Theorem main_probe_in_time (w : World) :
  detached w = [] →
  os_thread_latency os ≤ 2000 →
  hasInternet (snd (main os w)) = fst (CheckInternetConnection os 2 w)
  ∧ cout (snd (main os w))
    = cout w +:+ report (fst (GetNetworkInfo os w))
                   (fst (CheckInternetConnection os 2 w)).
Proof.
  intros Hstart Hlat.
  assert (Hslot :
    hasInternet (snd (main os w)) = fst (CheckInternetConnection os 2 w)).
  { unfold main, bind.
    destruct (GetNetworkInfo os w) as [interfaces w1] eqn:Henum.
    destruct (GetNetworkInfo_world os w) as [log Hw1].
    rewrite Henum in Hw1. simpl in Hw1. subst w1.
    unfold modify, thread_detach, cout_put, modify.
    rewrite print_interfaces_text.
    unfold sleep_for_seconds, bind, modify, run_due, gets, ret.
    destruct w as [fds live out err t0 h0 det]. simpl in Hstart. subst det.
    world_fields. cbn [app List.filter fst].
    destruct (Z.leb_spec (t0 + os_thread_latency os) (t0 + 1000 * 2)); [|lia].
    cbn [negb run_all run_closure]. unfold bind, modify, ret.
    match goal with |- context [CheckInternetConnection os 2 ?w'] =>
      rewrite (CheckInternetConnection_same_fds 2
                 {| open_fds := fds; live_ifaddrs := live; cout := out;
                    cerr := err; clock := t0; hasInternet := h0;
                    detached := [] |} w') by reflexivity;
      destruct (CheckInternetConnection os 2 w') as [b w''] end.
    reflexivity. }
  split; [exact Hslot|].
  rewrite <- Hslot. apply main_cout.
Qed.

End Report_text.

Lemma main_probe_in_time_witness :
  hasInternet (snd (main Sample.online Sample.boot))
  = fst (CheckInternetConnection Sample.online 2 Sample.boot)
  ∧ cout (snd (main Sample.online Sample.boot))
    = cout Sample.boot
      +:+ report (fst (GetNetworkInfo Sample.online Sample.boot))
            (fst (CheckInternetConnection Sample.online 2 Sample.boot)).
Proof.
  apply (main_probe_in_time Sample.online Sample.boot).
  - reflexivity.
  - vm_compute. discriminate.
Defined.

(** ** print_col: the short file name *)

Lemma strrchr_slash (s : string) :
  match print_col.strrchr s "/" with
  | Some p => ∃ dir rest, s = dir +:+ String "/" rest ∧ p = String "/" rest
                          ∧ print_col.has_char "/" rest = false
  | None => print_col.has_char "/" s = false
  end.
Proof.
  induction s as [|a s IH]; [done|]. cbn [print_col.strrchr].
  destruct (print_col.strrchr s "/") as [p|].
  - destruct IH as (dir & rest & -> & -> & Hrest).
    exists (String a dir), rest. by rewrite append_cons.
  - cbn [print_col.has_char]. destruct (Ascii.eqb_spec a "/") as [->|Hne].
    + by exists "", s.
    + by rewrite IH.
Qed.

Lemma has_char_append (c : ascii) (s t : string) :
  print_col.has_char c (s +:+ t)
  = print_col.has_char c s || print_col.has_char c t.
Proof.
  induction s as [|a s IH]; [done|].
  rewrite append_cons. cbn [print_col.has_char].
  by rewrite IH, orb_assoc.
Qed.

Lemma SHORT_FILE_split (FILE : string) :
  print_col.has_char "/" (print_col.SHORT_FILE FILE) = false
  ∧ ∃ dir, FILE = dir +:+ print_col.SHORT_FILE FILE
           ∧ (if print_col.has_char "/" FILE
              then ∃ d, dir = d +:+ "/"
              else dir = "").
Proof.
  unfold print_col.SHORT_FILE. pose proof (strrchr_slash FILE) as Hspec.
  destruct (print_col.strrchr FILE "/") as [p|].
  - destruct Hspec as (dir & rest & -> & -> & Hrest).
    cbn [print_col.plus_1]. split; [done|].
    exists (dir +:+ "/"). split.
    + by rewrite append_assoc.
    + rewrite has_char_append. cbn [print_col.has_char].
      rewrite Ascii.eqb_refl, orb_true_r. by exists dir.
  - split; [done|]. exists "". by rewrite Hspec.
Qed.

(** X12. [__SHORT_FILE__] is the file name without its directories: it has
    no slash in it, and the path is a directory part followed by it, where
    the directory part ends with a slash when the path has one and is empty
    when it has none (the path is then left as it is). *)
Theorem SHORT_FILE_basename (FILE : string) :
  print_col.has_char "/" (print_col.SHORT_FILE FILE) = false
  ∧ ∃ dir, FILE = dir +:+ print_col.SHORT_FILE FILE
           ∧ (if print_col.has_char "/" FILE
              then ∃ d, dir = d +:+ "/"
              else dir = "").
Proof. apply SHORT_FILE_split. Qed.

(** X13. Taking the short name of a short name changes nothing more. *)
Theorem SHORT_FILE_idempotent (FILE : string) :
  print_col.SHORT_FILE (print_col.SHORT_FILE FILE) = print_col.SHORT_FILE FILE.
Proof.
  destruct (SHORT_FILE_split FILE) as [Hnone _].
  pose proof (strrchr_slash (print_col.SHORT_FILE FILE)) as Hspec.
  unfold print_col.SHORT_FILE at 1.
  destruct (print_col.strrchr (print_col.SHORT_FILE FILE) "/") as [p|];
    [|done].
  destruct Hspec as (dir & rest & Heq & _ & _).
  rewrite Heq, has_char_append in Hnone. cbn [print_col.has_char] in Hnone.
  rewrite Ascii.eqb_refl, orb_true_r in Hnone. done.
Qed.

Example SHORT_FILE_main :
  print_col.SHORT_FILE "/home/user/C_code/print_col/main.c" = "main.c"
  ∧ print_col.SHORT_FILE "main.c" = "main.c"
  ∧ print_col.SHORT_FILE "src/" = "".
Proof. repeat split. Qed.
